(** * Secret-value providers: cluster store (k8s) and cloud manager (gcpsecrets)

    A shallow embedding of [pkg/providers/k8s/k8s.go] and
    [pkg/providers/gcpsecrets/gcpsecrets.go].

    Go strings are byte sequences, and so are Rocq's [string]s.  A Go function
    returning [(T, error)] becomes a function returning a pair [T * option
    error], [None] being the nil error.  Everything the code does to the
    outside (file system, environment, standard streams, backend SDK calls)
    is an event in a trace, and the answers of the outside are read from an
    oracle record, so that "is never consulted" is a statement on the trace. *)

From Stdlib Require Import ZArith Lia Ascii.
From stdpp Require Import base option list strings pretty gmap.

(** ** The fragment of Go the two providers rely on *)

Module Go.

(** An [error] value: its message ([Error()]) and the error it wraps
    ([Unwrap()]), if any. *)
Inductive error : Type :=
| Plain (msg : string)
| Wrapping (msg : string) (cause : error).

#[export] Instance error_eq_dec : EqDecision error.
Proof. solve_decision. Defined.

Definition Error (e : error) : string :=
  match e with Plain m => m | Wrapping m _ => m end.
Definition Unwrap (e : error) : option error :=
  match e with Plain _ => None | Wrapping _ c => Some c end.

(** [fmt.Errorf] with a format that only has [%s] verbs: the caller builds
    the message, nothing is wrapped. *)
Definition Errorf (msg : string) : error := Plain msg.

(** [fmt.Errorf(prefix + "%w", err)]: the message is the prefix followed by
    the message of [err], and [err] is what [Unwrap] gives back. *)
Definition Errorf_w (pre : string) (err : error) : error :=
  Wrapping (pre +:+ Error err) err.

(** A call either returns or panics (a run-time error such as an index out
    of range). *)
Inductive outcome (A : Type) : Type :=
| Returns (a : A)
| Panics (msg : string).
Arguments Returns {A} a.
Arguments Panics {A} msg.

(** Computations that leave a trace of events of type [E]. *)
Definition Eff (E A : Type) : Type := (list E * outcome A)%type.

Definition trace {E A} (m : Eff E A) : list E := m.1.
Definition result {E A} (m : Eff E A) : outcome A := m.2.

Definition emit {E} (e : E) : Eff E unit := ([e], Returns tt).
Definition panic {E A} (msg : string) : Eff E A := ([], Panics msg).

#[export] Instance eff_ret {E} : MRet (Eff E) := λ A a, ([], Returns a).
#[export] Instance eff_bind {E} : MBind (Eff E) := λ A B f m,
  match m.2 with
  | Returns a => (m.1 ++ (f a).1, (f a).2)
  | Panics msg => (m.1, Panics msg)
  end.

(** [api.StaticConfig]: the interface the constructors read their options
    from. *)
Record StaticConfig : Type := {
  cfgString : string → string;   (* String(name), a name Rocq's strings have taken *)
  cfgExists : string → bool      (* Exists(name) *)
}.

(** *** [strings.Split] and [strings.SplitN]

    Both providers split on the one-byte separator ["/"]; [genSplit] is
    the library's worker, called with [sepSave = 0] by both. *)

(** [strings.IndexByte]; [None] stands for [-1]. *)
Fixpoint IndexByte (s : string) (c : ascii) : option nat :=
  match s with
  | EmptyString => None
  | String a s' => if decide (a = c) then Some 0 else S <$> IndexByte s' c
  end.

(** [strings.Count] for a one-byte separator. *)
Fixpoint Count (s : string) (c : ascii) : nat :=
  match s with
  | EmptyString => 0
  | String a s' => (if decide (a = c) then 1 else 0) + Count s' c
  end.

(** [s[m:]] *)
Fixpoint sliceFrom (m : nat) (s : string) : string :=
  match m, s with
  | 0, _ => s
  | S m', String _ s' => sliceFrom m' s'
  | S _, EmptyString => EmptyString
  end.

(** [s[:m]] *)
Fixpoint sliceTo (m : nat) (s : string) : string :=
  match m, s with
  | 0, _ => EmptyString
  | S m', String a s' => String a (sliceTo m' s')
  | S _, EmptyString => EmptyString
  end.

(** The loop [for i < n { m := Index(s, sep); if m < 0 { break }; ... }]
    of [genSplit], followed by [a[i] = s]; the first argument is the
    number of iterations left, [n - i]. *)
Fixpoint genSplit_loop (left : nat) (s : string) (sep : ascii) : list string :=
  match left with
  | 0 => [s]
  | S left' =>
      match IndexByte s sep with
      | None => [s]
      | Some m => sliceTo m s :: genSplit_loop left' (sliceFrom (m + 1) s) sep
      end
  end.

Definition genSplit (s : string) (sep : ascii) (n : Z) : list string :=
  if (n =? 0)%Z then []
  else
    let n := if (n <? 0)%Z then (Z.of_nat (Count s sep) + 1)%Z else n in
    let n := if (n >? Z.of_nat (String.length s) + 1)%Z
             then (Z.of_nat (String.length s) + 1)%Z else n in
    genSplit_loop (Z.to_nat (n - 1)) s sep.

Definition Split (s : string) (sep : ascii) : list string := genSplit s sep (-1).
Definition SplitN (s : string) (sep : ascii) (n : Z) : list string := genSplit s sep n.

(** [strconv.ParseBool].  Its error quotes the input; the provider only
    tests that error for nil, and the escapes [strconv.Quote] writes for
    unprintable bytes are left out of the message. *)
Definition ParseBool (str : string) : bool * option error :=
  let quote := String "034"%char "" in
  if bool_decide (str ∈ ["1"; "t"; "T"; "TRUE"; "true"; "True"]) then (true, None)
  else if bool_decide (str ∈ ["0"; "f"; "F"; "FALSE"; "false"; "False"]) then (false, None)
  else (false, Some (Errorf ("strconv.ParseBool: parsing " +:+ quote +:+ str +:+ quote
                             +:+ ": invalid syntax"))).

(** [a[i]] on a slice: an index out of range panics. *)
Definition index {E} (a : list string) (i : nat) : Eff E string :=
  match a !! i with
  | Some x => mret x
  | None => panic ("runtime error: index out of range [" +:+ pretty i
                   +:+ "] with length " +:+ pretty (length a))
  end.

End Go.

Import Go.

(** The line feed that ends the lines written with [fmt.Printf]. *)
Definition newline : string := String "010"%char "".

(** The separator both providers split on. *)
Definition slash : ascii := "/"%char.

(** A Go map value is nil or a map; reading a nil map finds nothing.
    [m[k]] in its two-result form is the option [mapIndex m k]: the value
    when [exists] is true, [None] when it is false. *)
Definition mapIndex {V} (m : option (gmap string V)) (k : string) : option V :=
  m ≫= (.!! k).

(** ** The cluster-store provider, [pkg/providers/k8s/k8s.go] *)

Module K8s.

(** What the provider does to the outside, in the order it does it. *)
Inductive event : Type :=
| EvStat (path : string)                          (* os.Stat *)
| EvGetenv (name : string)                        (* os.Getenv *)
| EvUserHomeDir                                   (* os.UserHomeDir *)
| EvPrintf (text : string)                        (* fmt.Printf *)
| EvClientConfig (context kubeconfigPath : string) (* clientcmd ... .ClientConfig() *)
| EvNewForConfig                                  (* kubernetes.NewForConfig *)
| EvSecretsGet (namespace secretName : string)    (* CoreV1().Secrets(ns).Get *)
| EvDebugf (format : string).                     (* p.log.Debugf *)

#[export] Instance event_eq_dec : EqDecision event.
Proof. solve_decision. Defined.

(** What the outside answers: the operating system and the client-go SDK.
    [Stat] gives the error of [os.Stat] ([None]: the path exists). *)
Record World : Type := {
  Config : Type;
  Clientset : Type;
  Stat : string → option error;
  Getenv : string → string;
  UserHomeDir : string * option error;
  ClientConfig : string → string → error + Config;
  NewForConfig : Config → error + Clientset;
  SecretsGet : Clientset → string → string → error + option (gmap string string)
}.

(** The [log] field is the logger [Debugf] goes to; its calls are events. *)
Record provider : Type := {
  KubeConfigPath : string;
  KubeContext : string
}.

Definition stat (w : World) (path : string) : Eff event (option error) :=
  emit (EvStat path);; mret (Stat w path).

Definition getenv (w : World) (name : string) : Eff event string :=
  emit (EvGetenv name);; mret (Getenv w name).

Definition userHomeDir (w : World) : Eff event (string * option error) :=
  emit EvUserHomeDir;; mret (UserHomeDir w).

(** [getKubeConfig], lines 56-67: the default path. *)
Definition getKubeConfig_default (w : World) : Eff event (string * option error) :=
  '(homeDir, err) ← userHomeDir w;
  match err with
  | Some err =>
      mret ("", Some (Errorf ("An error occurred getting the user's home directory: "
                              +:+ Error err)))
  | None =>
      let defaultPath := homeDir +:+ "/.kube/config" in
      err ← stat w defaultPath;
      match err with
      | None => mret (defaultPath, None)
      | Some _ =>
          mret ("", Some (Errorf ("No path was found in any of the following: kubeContext URI param, KUBECONFIG environment variable, or default path "
                                  +:+ defaultPath +:+ " does not exist.")))
      end
  end.

(** [getKubeConfig], lines 49-54, and what follows them. *)
Definition getKubeConfig_env (w : World) : Eff event (string * option error) :=
  envPath ← getenv w "KUBECONFIG";
  if decide (envPath ≠ "") then
    err ← stat w envPath;
    match err with
    | Some _ =>
        mret (envPath, Some (Errorf ("KUBECONFIG environment variable is set but path "
                                     +:+ envPath +:+ " does not exist.")))
    | None => getKubeConfig_default w
    end
  else getKubeConfig_default w.

(** [getKubeConfig], lines 42-47, and what follows them: the body of the
    first [if] has no [return] for a path that exists. *)
Definition getKubeConfig (w : World) (cfg : StaticConfig) : Eff event (string * option error) :=
  if decide (cfgString cfg "kubeConfigPath" ≠ "") then
    err ← stat w (cfgString cfg "kubeConfigPath");
    match err with
    | Some _ =>
        mret (cfgString cfg "kubeConfigPath",
              Some (Errorf ("kubeConfigPath URI parameter is set but path "
                            +:+ cfgString cfg "kubeConfigPath" +:+ " does not exist.")))
    | None => getKubeConfig_env w
    end
  else getKubeConfig_env w.

Definition getKubeContext (cfg : StaticConfig) : string :=
  if decide (cfgString cfg "kubeContext" ≠ "") then cfgString cfg "kubeContext" else "".

Definition New (w : World) (cfg : StaticConfig) : Eff event provider :=
  '(kubeConfig, err) ← getKubeConfig w cfg;
  match err with
  | Some err =>
      emit (EvPrintf ("An error occurred getting the Kubeconfig path: "
                      +:+ Error err +:+ newline));;
      mret {| KubeConfigPath := ""; KubeContext := "" |}
  | None =>
      mret {| KubeConfigPath := kubeConfig; KubeContext := getKubeContext cfg |}
  end.

Definition buildConfigWithContextFromFlags (w : World) (context kubeconfigPath : string)
  : Eff event (error + Config w) :=
  emit (EvClientConfig context kubeconfigPath);;
  mret (ClientConfig w context kubeconfigPath).

(** Fetch the secret from the cluster. *)
Definition getSecret (w : World) (namespace secretName kubeConfigPath kubeContext : string)
  : Eff event (option (gmap string string) * option error) :=
  (if decide (kubeContext = "")
   then emit (EvPrintf ("vals-k8s: kubeContext was not provided. Using current context."
                        +:+ newline))
   else mret tt);;
  config ← buildConfigWithContextFromFlags w kubeContext kubeConfigPath;
  match config with
  | inl err =>
      mret (None, Some (Errorf ("Unable to build Kubeconfig from vals configuration: "
                                +:+ Error err)))
  | inr config =>
      emit EvNewForConfig;;
      match NewForConfig w config with
      | inl err =>
          mret (None, Some (Errorf ("Unable to create the Kubernetes client: " +:+ Error err)))
      | inr clientset =>
          emit (EvSecretsGet namespace secretName);;
          match SecretsGet w clientset namespace secretName with
          | inl err =>
              mret (None, Some (Errorf ("Unable to get the secret from Kubernetes: "
                                        +:+ Error err)))
          | inr data => mret (data, None)
          end
      end
  end.

(** [GetString], lines 82-99: what is done with the three coordinates. *)
Definition GetString_at (w : World) (p : provider) (namespace secretName key : string)
  : Eff event (string * option error) :=
  if decide (KubeConfigPath p = "") then
    mret ("", Some (Errorf "No Kubeconfig path was found"))
  else
    '(secretData, err) ← getSecret w namespace secretName (KubeConfigPath p) (KubeContext p);
    let secret := default "" (mapIndex secretData key) in
    let exists_ := bool_decide (is_Some (mapIndex secretData key)) in
    if bool_decide (err ≠ None) || negb exists_ then
      mret ("", Some (Errorf ("Key " +:+ key +:+ " does not exist in "
                              +:+ namespace +:+ "/" +:+ secretName)))
    else
      let message := "vals-k8s: Retrieved secret "
                     +:+ namespace +:+ "/" +:+ secretName +:+ "/" +:+ key in
      let message := if decide (KubeContext p ≠ "")
                     then message +:+ " (KubeContext: " +:+ KubeContext p +:+ ")"
                     else message in
      emit (EvDebugf message);;
      mret (secret, None).

(** [GetString], lines 70-80, and what follows them. *)
Definition GetString (w : World) (p : provider) (path : string)
  : Eff event (string * option error) :=
  let separator := slash in
  let splits := Split path separator in
  if decide (length splits ≠ 3) then
    mret ("", Some (Errorf ("Invalid path " +:+ path
                            +:+ ". Path must be in the format <namespace>/<secret>/<key>")))
  else
    namespace ← index splits 0;
    secretName ← index splits 1;
    key ← index splits 2;
    GetString_at w p namespace secretName key.

Definition GetStringMap {any : Type} (w : World) (p : provider) (path : string)
  : Eff event (option (gmap string any) * option error) :=
  mret (None, Some (Errorf "This provider does not support values from URI fragments")).

End K8s.

(** ** The cloud-manager provider, [pkg/providers/gcpsecrets/gcpsecrets.go] *)

Module Gcpsecrets.

Inductive event : Type :=
| EvNewClient                          (* sm.NewClient *)
| EvStderr (text : string)             (* fmt.Fprintf(os.Stderr, ...) *)
| EvAccessSecretVersion (name : string). (* c.AccessSecretVersion *)

#[export] Instance event_eq_dec : EqDecision event.
Proof. solve_decision. Defined.

(** [smpb.SecretPayload]: [Data] is a byte slice, nil ([None]) or not. *)
Record SecretPayload : Type := { Data : option string }.

(** [smpb.AccessSecretVersionResponse]: [GetPayload()] is a pointer, nil
    ([None]) or not. *)
Record AccessSecretVersionResponse : Type := { GetPayload : option SecretPayload }.

(** What the secret-manager SDK answers. *)
Record World : Type := {
  Client : Type;
  NewClient : error + Client;
  AccessSecretVersion : Client → string → error + AccessSecretVersionResponse
}.

(** The fields [client] and [ctx] are never read for a decision: [client]
    is never assigned and [ctx] is the background context. *)
Record provider : Type := {
  version : string;
  optional : bool;
  fallback : option string
}.

Definition New (cfg : StaticConfig) : provider :=
  let version := cfgString cfg "version" in
  let optional := cfgString cfg "optional" in
  {| version := if decide (version = "") then "latest" else version;
     optional :=
       if decide (optional ≠ "") then
         let '(val, err) := ParseBool optional in
         match err with None => val | Some _ => false end
       else false;
     fallback :=
       if cfgExists cfg "fallback_value"
       then Some (cfgString cfg "fallback_value") else None |}.

(** The resource name of the request, line 96. *)
Definition resourceName (project name version : string) : string :=
  "projects/" +:+ project +:+ "/secrets/" +:+ name +:+ "/versions/" +:+ version.

Definition getSecretBytes (w : World) (p : provider) (key : string)
  : Eff event (option string * option error) :=
  emit EvNewClient;;
  match NewClient w with
  | inl err =>
      emit (EvStderr ("failed to connect: " +:+ Error err));;
      mret (None, Some err)
  | inr c =>
      let splitKey := SplitN key slash 2 in
      project ← index splitKey 0;
      name ← index splitKey 1;
      let req := resourceName project name (version p) in
      emit (EvAccessSecretVersion req);;
      match AccessSecretVersion w c req with
      | inl err =>
          if optional p then mret (None, None)
          else
            match fallback p with
            | Some fallback => mret (Some fallback, None)
            | None => mret (None, Some (Errorf_w "failed to get secret: " err))
            end
      | inr secret =>
          match GetPayload secret with
          | None => panic "runtime error: invalid memory address or nil pointer dereference"
          | Some payload => mret (Data payload, None)
          end
      end
  end.

(** [string(secret)]: the nil slice converts to the empty string. *)
Definition GetString (w : World) (p : provider) (key : string)
  : Eff event (string * option error) :=
  '(secret, err) ← getSecretBytes w p key;
  match err with
  | Some err => mret ("", Some err)
  | None => mret (default "" secret, None)
  end.

Section GetStringMap.

(** The values of a decoded document ([interface{}]) and [yaml.Unmarshal]
    from [gopkg.in/yaml.v3], which fills the map it is given and returns an
    error or nil. *)
Variable any : Type.
Variable yamlUnmarshal : string → gmap string any → gmap string any * option error.

Definition GetStringMap (w : World) (p : provider) (key : string)
  : Eff event (option (gmap string any) * option error) :=
  let secretMap : gmap string any := ∅ in
  '(secretString, err) ← GetString w p key;
  match err with
  | Some err => mret (None, Some err)
  | None =>
      let '(secretMap, err) := yamlUnmarshal secretString secretMap in
      match err with
      | Some err => mret (None, Some (Errorf_w "failed to unmarshal secret: " err))
      | None => mret (Some secretMap, None)
      end
  end.

End GetStringMap.

End Gcpsecrets.

(** ** The missing-value policy in the words of the specification *)

Module Spec.

(** What a backend communication error [e] becomes: an empty success for an
    optional provider, else the fallback value when one is configured, else
    [e] wrapped as "failed to get secret". *)
Definition missingValuePolicy (p : Gcpsecrets.provider) (e : error)
  : option string * option error :=
  if Gcpsecrets.optional p then (None, None)
  else
    match Gcpsecrets.fallback p with
    | Some x => (Some x, None)
    | None => (None, Some (Errorf_w "failed to get secret: " e))
    end.

End Spec.

(** ** Sample configurations, machines and backends *)

Module Samples.

(** A configuration read from a list of options. *)
Definition config (opts : list (string * string)) : StaticConfig :=
  {| cfgString := λ name, default "" ((list_to_map opts : gmap string string) !! name);
     cfgExists := λ name, bool_decide (is_Some ((list_to_map opts : gmap string string) !! name)) |}.

(** A machine with the given files and value of [KUBECONFIG], the home
    directory [/home/dev], and a cluster that is reachable when [up] and then
    holds the one secret [default/db], with the one key [password]. *)
Definition machine (files : list string) (kubeconfig : string) (up : bool) : K8s.World :=
  {| K8s.Config := string;
     K8s.Clientset := unit;
     K8s.Stat := λ path,
       if decide (path ∈ files) then None
       else Some (Plain ("stat " +:+ path +:+ ": no such file or directory"));
     K8s.Getenv := λ name, if decide (name = "KUBECONFIG") then kubeconfig else "";
     K8s.UserHomeDir := ("/home/dev", None);
     K8s.ClientConfig := λ context kubeconfigPath, inr kubeconfigPath;
     K8s.NewForConfig := λ _, inr tt;
     K8s.SecretsGet := λ _ namespace secretName,
       if up && bool_decide (namespace = "default" ∧ secretName = "db")
       then inr (Some {[ "password" := "s3cr3t" ]})
       else inl (Plain "connection refused") |}.

(** A provider with a credential path and no context. *)
Definition admin : K8s.provider :=
  {| K8s.KubeConfigPath := "/etc/kube/admin.conf"; K8s.KubeContext := "" |}.

(** A secret manager whose client cannot be built. *)
Definition sm_unreachable : Gcpsecrets.World :=
  {| Gcpsecrets.Client := unit;
     Gcpsecrets.NewClient := inl (Plain "could not find default credentials");
     Gcpsecrets.AccessSecretVersion := λ _ _, inl (Plain "unreachable") |}.

(** A secret manager that holds one secret, the empty document, and fails
    every other request. *)
Definition sm_one_secret : Gcpsecrets.World :=
  {| Gcpsecrets.Client := unit;
     Gcpsecrets.NewClient := inr tt;
     Gcpsecrets.AccessSecretVersion := λ _ name,
       if decide (name = "projects/proj/secrets/empty/versions/latest")
       then inr {| Gcpsecrets.GetPayload := Some {| Gcpsecrets.Data := Some "" |} |}
       else inl (Plain "rpc error: code = NotFound") |}.

(** A decoder that knows the empty document only. *)
Definition yaml_empty_only (doc : string) (m : gmap string nat)
  : gmap string nat * option error :=
  if decide (doc = "") then (m, None) else (m, Some (Plain "yaml: unsupported document")).

(** A machine as [machine], with the answer of [os.UserHomeDir] given, and
    with a kubeconfig that loads when [loads] and a client that can be built
    when [builds]. *)
Definition machine_at (files : list string) (kubeconfig : string)
    (home : string * option error) (loads builds up : bool) : K8s.World :=
  {| K8s.Config := string;
     K8s.Clientset := unit;
     K8s.Stat := λ path,
       if decide (path ∈ files) then None
       else Some (Plain ("stat " +:+ path +:+ ": no such file or directory"));
     K8s.Getenv := λ name, if decide (name = "KUBECONFIG") then kubeconfig else "";
     K8s.UserHomeDir := home;
     K8s.ClientConfig := λ context kubeconfigPath,
       if loads then inr kubeconfigPath
       else inl (Plain "invalid configuration: no configuration has been provided");
     K8s.NewForConfig := λ _,
       if builds then inr tt else inl (Plain "host must be a URL or a host:port pair");
     K8s.SecretsGet := λ _ namespace secretName,
       if up && bool_decide (namespace = "default" ∧ secretName = "db")
       then inr (Some {[ "password" := "s3cr3t" ]})
       else inl (Plain "connection refused") |}.


(** A secret manager that answers the request for [name] with the given
    payload pointer and fails every other request. *)
Definition sm_holding (name : string) (payload : option Gcpsecrets.SecretPayload)
  : Gcpsecrets.World :=
  {| Gcpsecrets.Client := unit;
     Gcpsecrets.NewClient := inr tt;
     Gcpsecrets.AccessSecretVersion := λ _ n,
       if decide (n = name) then inr {| Gcpsecrets.GetPayload := payload |}
       else inl (Plain "rpc error: code = NotFound") |}.

(** A decoder for the empty document and for documents of one line
    [key: value]. *)
Definition yaml_one_pair (doc : string) (m : gmap string string)
  : gmap string string * option error :=
  if decide (doc = "") then (m, None)
  else
    match IndexByte doc ":"%char with
    | Some i => (<[sliceTo i doc := sliceFrom (i + 2) doc]> m, None)
    | None => (m, Some (Plain "yaml: unmarshal errors"))
    end.

End Samples.

(** ** The effect monad *)

Section Eff.
Context {E A B : Type}.

Lemma bind_returns (m : Eff E A) (f : A → Eff E B) (a : A) :
  result m = Returns a →
  m ≫= f = (trace m ++ trace (f a), result (f a)).
Proof. unfold result, trace, mbind, eff_bind. intros ->. reflexivity. Qed.

Lemma ret_bind (a : A) (f : A → Eff E B) : mret a ≫= f = f a.
Proof. unfold mret, eff_ret, mbind, eff_bind. simpl. by destruct (f a). Qed.

End Eff.

(** ** Splitting on a one-byte separator *)

Section Strings.
Variable c : ascii.

Lemma IndexByte_absent (s : string) : Count s c = 0 → IndexByte s c = None.
Proof.
  induction s as [|a s IH]; simpl; [done|].
  destruct (decide (a = c)); [done|]. intros H. by rewrite IH.
Qed.

Lemma IndexByte_None_Count (s : string) : IndexByte s c = None → Count s c = 0.
Proof.
  induction s as [|a s IH]; simpl; [done|].
  destruct (decide (a = c)); [done|].
  destruct (IndexByte s c); [done|]. intros _. by apply IH.
Qed.

Lemma IndexByte_Some_Count (s : string) (m : nat) :
  IndexByte s c = Some m → Count s c = S (Count (sliceFrom (m + 1) s) c).
Proof.
  revert m. induction s as [|a s IH]; intros m; simpl; [done|].
  destruct (decide (a = c)).
  - intros [= <-]. reflexivity.
  - destruct (IndexByte s c) as [m'|] eqn:Hm; [|done].
    intros [= <-]. simpl. by apply IH.
Qed.

Lemma IndexByte_first (s t : string) :
  Count s c = 0 → IndexByte (s +:+ String c t) c = Some (String.length s).
Proof.
  induction s as [|a s IH]; simpl.
  - intros _. by rewrite decide_True.
  - destruct (decide (a = c)); [done|]. intros H. by rewrite IH.
Qed.

Lemma sliceTo_app (s t : string) : sliceTo (String.length s) (s +:+ t) = s.
Proof. induction s as [|a s IH]; simpl; [by destruct t|]. by rewrite IH. Qed.

Lemma sliceFrom_app (s t : string) :
  sliceFrom (String.length s + 1) (s +:+ String c t) = t.
Proof. induction s as [|a s IH]; simpl; [done|]. exact IH. Qed.

Lemma Count_app (s t : string) : Count (s +:+ t) c = Count s c + Count t c.
Proof. induction s as [|a s IH]; simpl; [done|]. rewrite IH. lia. Qed.

Lemma Count_le_length (s : string) : Count s c ≤ String.length s.
Proof. induction s as [|a s IH]; simpl; [done|]. destruct (decide (a = c)); lia. Qed.

(** With no limit on their number, the segments are taken until no
    separator is left. *)
Lemma Split_loop (s : string) : Split s c = genSplit_loop (Count s c) s c.
Proof.
  unfold Split, genSplit. simpl.
  pose proof (Count_le_length s).
  destruct (Z.gtb_spec (Z.of_nat (Count s c) + 1) (Z.of_nat (String.length s) + 1)); [lia|].
  f_equal. lia.
Qed.

Lemma genSplit_loop_first (n : nat) (s t : string) :
  Count s c = 0 →
  genSplit_loop (S n) (s +:+ String c t) c = s :: genSplit_loop n t c.
Proof.
  intros H. simpl. rewrite IndexByte_first by done.
  by rewrite sliceTo_app, sliceFrom_app.
Qed.

Lemma genSplit_loop_last (n : nat) (s : string) :
  Count s c = 0 → genSplit_loop n s c = [s].
Proof. intros H. destruct n; simpl; [done|]. by rewrite IndexByte_absent. Qed.

Lemma length_genSplit_loop (n : nat) (s : string) :
  Count s c = n → length (genSplit_loop n s c) = S n.
Proof.
  revert s. induction n as [|n IH]; intros s H; simpl; [done|].
  destruct (IndexByte s c) as [m|] eqn:Hm.
  - simpl. f_equal. apply IH. apply IndexByte_Some_Count in Hm. lia.
  - apply IndexByte_None_Count in Hm. lia.
Qed.

(** The number of segments of a path is one more than its number of
    separators. *)
Lemma length_Split (s : string) : length (Split s c) = Count s c + 1.
Proof. rewrite Split_loop, length_genSplit_loop by done. lia. Qed.

Lemma Split_three (s1 s2 s3 : string) :
  Count s1 c = 0 → Count s2 c = 0 → Count s3 c = 0 →
  Split (s1 +:+ String c (s2 +:+ String c s3)) c = [s1; s2; s3].
Proof.
  intros H1 H2 H3. rewrite Split_loop.
  replace (Count (s1 +:+ String c (s2 +:+ String c s3)) c) with 2.
  - rewrite (genSplit_loop_first 1), (genSplit_loop_first 0) by done.
    by rewrite genSplit_loop_last.
  - rewrite Count_app; simpl. rewrite Count_app; simpl.
    rewrite !decide_True by done. lia.
Qed.

(** [SplitN] with limit 2 gives one segment when there is no separator. *)
Lemma SplitN_2_no_sep (s : string) : Count s c = 0 → SplitN s c 2 = [s].
Proof.
  intros H. unfold SplitN, genSplit. simpl.
  destruct (_ >? _)%Z; by rewrite genSplit_loop_last.
Qed.

(** [SplitN] with limit 2 cuts at the first separator, when there is one. *)
Lemma SplitN_2_sep (s : string) (m : nat) :
  IndexByte s c = Some m → SplitN s c 2 = [sliceTo m s; sliceFrom (m + 1) s].
Proof.
  intros H. unfold SplitN, genSplit. simpl.
  destruct (Z.gtb_spec 2 (Z.of_nat (String.length s) + 1)) as [Hlen|Hlen].
  - destruct s; [done|]. simpl in Hlen. lia.
  - simpl. by rewrite H.
Qed.

End Strings.

Example Split_three_segments :
  Split "default/db/password" slash = ["default"; "db"; "password"].
Proof. reflexivity. Qed.

Example Split_empty_path : Split "" slash = [""].
Proof. reflexivity. Qed.

Example Split_trailing_separator : Split "a/b/" slash = ["a"; "b"; ""].
Proof. reflexivity. Qed.

Example SplitN_first_separator_only : SplitN "proj/a/b" slash 2 = ["proj"; "a/b"].
Proof. reflexivity. Qed.

Example SplitN_no_separator : SplitN "nosep" slash 2 = ["nosep"].
Proof. reflexivity. Qed.

Example SplitN_empty_key : SplitN "" slash 2 = [""].
Proof. reflexivity. Qed.

(** ** The cluster-store provider *)

Section ClusterStore.
Import K8s.

(** An explicit path that is not on disk ends the resolution at once: the
    environment and the home directory are not looked at. *)
Lemma getKubeConfig_explicit_missing (w : World) (cfg : StaticConfig) (e : error) :
  cfgString cfg "kubeConfigPath" ≠ "" →
  Stat w (cfgString cfg "kubeConfigPath") = Some e →
  getKubeConfig w cfg
  = ([EvStat (cfgString cfg "kubeConfigPath")],
     Returns (cfgString cfg "kubeConfigPath",
              Some (Errorf ("kubeConfigPath URI parameter is set but path "
                            +:+ cfgString cfg "kubeConfigPath" +:+ " does not exist.")))).
Proof.
  intros Hset Hstat. unfold getKubeConfig, stat.
  rewrite decide_True by done. cbn. rewrite Hstat. reflexivity.
Qed.

(** An explicit path that is on disk is checked and then dropped: the
    resolution goes on with the environment variable as if no explicit path
    had been given. *)
Lemma getKubeConfig_explicit_present (w : World) (cfg : StaticConfig) :
  cfgString cfg "kubeConfigPath" ≠ "" →
  Stat w (cfgString cfg "kubeConfigPath") = None →
  getKubeConfig w cfg
  = (EvStat (cfgString cfg "kubeConfigPath") :: trace (getKubeConfig_env w),
     result (getKubeConfig_env w)).
Proof.
  intros Hset Hstat. unfold getKubeConfig, stat.
  rewrite decide_True by done. cbn. rewrite Hstat. reflexivity.
Qed.

Lemma getKubeConfig_env_reads_KUBECONFIG (w : World) :
  ∃ t, trace (getKubeConfig_env w) = EvGetenv "KUBECONFIG" :: t.
Proof.
  unfold getKubeConfig_env, getenv. cbn.
  destruct (decide (Getenv w "KUBECONFIG" ≠ "")); eexists; reflexivity.
Qed.

(** A failed fetch is reported with the words of a missing key; the error
    [getSecret] built for the stage that failed is dropped. *)
Lemma GetString_at_fetch_error (w : World) (p : provider)
    (namespace secretName key : string) (data : option (gmap string string)) (e : error) :
  KubeConfigPath p ≠ "" →
  result (getSecret w namespace secretName (KubeConfigPath p) (KubeContext p))
  = Returns (data, Some e) →
  result (GetString_at w p namespace secretName key)
  = Returns ("", Some (Errorf ("Key " +:+ key +:+ " does not exist in "
                               +:+ namespace +:+ "/" +:+ secretName))).
Proof.
  intros Hp Hget. unfold GetString_at.
  rewrite decide_False by done.
  rewrite (bind_returns _ _ _ Hget). reflexivity.
Qed.

Lemma GetString_at_key_absent (w : World) (p : provider)
    (namespace secretName key : string) (data : option (gmap string string)) :
  KubeConfigPath p ≠ "" →
  result (getSecret w namespace secretName (KubeConfigPath p) (KubeContext p))
  = Returns (data, None) →
  mapIndex data key = None →
  result (GetString_at w p namespace secretName key)
  = Returns ("", Some (Errorf ("Key " +:+ key +:+ " does not exist in "
                               +:+ namespace +:+ "/" +:+ secretName))).
Proof.
  intros Hp Hget Hkey. unfold GetString_at.
  rewrite decide_False by done.
  rewrite (bind_returns _ _ _ Hget). cbn. rewrite Hkey. reflexivity.
Qed.

Lemma GetString_split (w : World) (p : provider) (path a b c : string) :
  Split path slash = [a; b; c] →
  GetString w p path = GetString_at w p a b c.
Proof.
  intros H. unfold GetString. cbn zeta. rewrite H. cbn [length].
  rewrite decide_False by (intros ?; done).
  unfold index. cbn [lookup list_lookup]. by rewrite !ret_bind.
Qed.

Example GetString_found :
  GetString (Samples.machine [] "" true) Samples.admin "default/db/password"
  = ([EvPrintf ("vals-k8s: kubeContext was not provided. Using current context." +:+ newline);
      EvClientConfig "" "/etc/kube/admin.conf"; EvNewForConfig;
      EvSecretsGet "default" "db";
      EvDebugf "vals-k8s: Retrieved secret default/db/password"],
     Returns ("s3cr3t", None)).
Proof. vm_compute. reflexivity. Qed.

Example GetString_no_credentials :
  GetString (Samples.machine [] "" true) {| KubeConfigPath := ""; KubeContext := "" |}
    "default/db/password"
  = ([], Returns ("", Some (Errorf "No Kubeconfig path was found"))).
Proof. vm_compute. reflexivity. Qed.

Example getKubeConfig_explicit_absent :
  getKubeConfig (Samples.machine [] "" true)
                (Samples.config [("kubeConfigPath", "/etc/kube/admin.conf")])
  = ([EvStat "/etc/kube/admin.conf"],
     Returns ("/etc/kube/admin.conf",
              Some (Errorf "kubeConfigPath URI parameter is set but path /etc/kube/admin.conf does not exist."))).
Proof. vm_compute. reflexivity. Qed.

Example getKubeConfig_default_found :
  getKubeConfig (Samples.machine ["/home/dev/.kube/config"] "" true) (Samples.config [])
  = ([EvGetenv "KUBECONFIG"; EvUserHomeDir; EvStat "/home/dev/.kube/config"],
     Returns ("/home/dev/.kube/config", None)).
Proof. vm_compute. reflexivity. Qed.

(** C1, on the code: with the explicit path [/etc/kube/admin.conf]
    configured and present on disk, [KUBECONFIG] unset and no
    [/home/dev/.kube/config], [getKubeConfig] checks the explicit path, then
    reads [KUBECONFIG], asks for the home directory, checks the default path
    and fails with "No path was found ...": the explicit path is not
    returned, and the environment and the default path are consulted. *)
Theorem getKubeConfig_explicit_present_not_returned :
  getKubeConfig (Samples.machine ["/etc/kube/admin.conf"] "" true)
                (Samples.config [("kubeConfigPath", "/etc/kube/admin.conf")])
  = ([EvStat "/etc/kube/admin.conf"; EvGetenv "KUBECONFIG"; EvUserHomeDir;
      EvStat "/home/dev/.kube/config"],
     Returns ("", Some (Errorf "No path was found in any of the following: kubeContext URI param, KUBECONFIG environment variable, or default path /home/dev/.kube/config does not exist."))).
Proof. vm_compute. reflexivity. Qed.

(** C3, on the code: for the path [default/db/user], [GetString] returns the
    same error, "Key user does not exist in default/db", when the secret
    [default/db] is fetched and has no key [user] and when the fetch itself
    fails; the two cases cannot be told apart from what is returned. *)
Theorem GetString_fetch_failure_reported_as_missing_key :
  result (getSecret (Samples.machine [] "" true) "default" "db" "/etc/kube/admin.conf" "")
  = Returns (Some {[ "password" := "s3cr3t" ]}, None)
  ∧ result (getSecret (Samples.machine [] "" false) "default" "db" "/etc/kube/admin.conf" "")
    = Returns (None, Some (Errorf "Unable to get the secret from Kubernetes: connection refused"))
  ∧ result (GetString (Samples.machine [] "" true) Samples.admin "default/db/user")
    = Returns ("", Some (Errorf "Key user does not exist in default/db"))
  ∧ result (GetString (Samples.machine [] "" false) Samples.admin "default/db/user")
    = Returns ("", Some (Errorf "Key user does not exist in default/db")).
Proof. repeat split; vm_compute; reflexivity. Qed.

(** C8: a path [ns/name/key] whose three parts hold no separator splits
    into [ns; name; key], and [GetString] goes on with these as namespace,
    secret name and key, in that order, as it does for every path that
    splits into three segments; a path whose number of segments (one more
    than its number of separators) is not 3 gets the "Invalid path" error
    with an empty trace: no credential check, no client, no fetch. *)
Theorem GetString_path_parsing (w : World) (p : provider) :
  (∀ ns name key : string,
     Count ns slash = 0 → Count name slash = 0 → Count key slash = 0 →
     Split (ns +:+ "/" +:+ name +:+ "/" +:+ key) slash = [ns; name; key]
     ∧ GetString w p (ns +:+ "/" +:+ name +:+ "/" +:+ key) = GetString_at w p ns name key)
  ∧ (∀ path a b c : string,
       Split path slash = [a; b; c] → GetString w p path = GetString_at w p a b c)
  ∧ (∀ path : string,
       length (Split path slash) = Count path slash + 1
       ∧ (length (Split path slash) ≠ 3 →
          GetString w p path
          = ([], Returns ("", Some (Errorf ("Invalid path " +:+ path
               +:+ ". Path must be in the format <namespace>/<secret>/<key>")))))).
Proof.
  split; [|split].
  - intros ns name key Hns Hname Hkey.
    assert (Split (ns +:+ "/" +:+ name +:+ "/" +:+ key) slash = [ns; name; key]) as H
      by (by apply (Split_three slash)).
    split; [exact H|]. by apply GetString_split.
  - intros path a b c. apply GetString_split.
  - intros path. split; [apply length_Split|].
    intros H. unfold GetString. cbn zeta. by rewrite decide_True.
Qed.

Lemma GetString_path_parsing_witness :
  (Split "default/db/password" slash = ["default"; "db"; "password"]
   ∧ GetString (Samples.machine [] "" true) Samples.admin "default/db/password"
     = GetString_at (Samples.machine [] "" true) Samples.admin "default" "db" "password")
  ∧ GetString (Samples.machine [] "" true) Samples.admin "default/db"
    = ([], Returns ("", Some (Errorf "Invalid path default/db. Path must be in the format <namespace>/<secret>/<key>"))).
Proof.
  destruct (GetString_path_parsing (Samples.machine [] "" true) Samples.admin)
    as (H3 & _ & Hbad).
  split.
  - apply (H3 "default" "db" "password"); reflexivity.
  - apply (Hbad "default/db"). vm_compute. lia.
Defined.

(** C9: whatever the path, [GetStringMap] returns the nil map and the error
    "This provider does not support values from URI fragments", and its trace
    is empty: nothing is resolved and nothing is called. *)
Theorem GetStringMap_unsupported (any : Type) (w : World) (p : provider) (path : string) :
  trace (GetStringMap (any := any) w p path) = []
  ∧ ∃ err : error,
      result (GetStringMap (any := any) w p path) = Returns (None, Some err)
      ∧ Error err = "This provider does not support values from URI fragments".
Proof. split; [reflexivity|]. eexists. split; reflexivity. Qed.

End ClusterStore.

(** ** The cloud-manager provider *)

Section CloudManager.
Import Gcpsecrets.

Lemma getSecretBytes_no_client (w : World) (p : provider) (key : string) (e : error) :
  NewClient w = inl e →
  getSecretBytes w p key
  = ([EvNewClient; EvStderr ("failed to connect: " +:+ Error e)], Returns (None, Some e)).
Proof. intros H. unfold getSecretBytes. rewrite H. reflexivity. Qed.

(** With a client and a key that splits in two, one request is sent, and
    its answer decides. *)
Lemma getSecretBytes_fetch (w : World) (p : provider) (key project name : string)
    (c : Client w) :
  NewClient w = inr c →
  SplitN key slash 2 = [project; name] →
  getSecretBytes w p key
  = ([EvNewClient; EvAccessSecretVersion (resourceName project name (version p))],
     match AccessSecretVersion w c (resourceName project name (version p)) with
     | inl err =>
         if optional p then Returns (None, None)
         else match fallback p with
              | Some x => Returns (Some x, None)
              | None => Returns (None, Some (Errorf_w "failed to get secret: " err))
              end
     | inr secret =>
         match GetPayload secret with
         | None => Panics "runtime error: invalid memory address or nil pointer dereference"
         | Some payload => Returns (Data payload, None)
         end
     end).
Proof.
  intros Hc Hs. unfold getSecretBytes. rewrite Hc, Hs. cbn.
  destruct (AccessSecretVersion _ _ _) as [err|secret]; cbn.
  - destruct (optional p); [reflexivity|]. destruct (fallback p); reflexivity.
  - destruct (GetPayload secret); reflexivity.
Qed.

Lemma GetString_of_bytes (w : World) (p : provider) (key : string)
    (secret : option string) (err : option error) :
  result (getSecretBytes w p key) = Returns (secret, err) →
  result (GetString w p key)
  = Returns (match err with Some e => ("", Some e) | None => (default "" secret, None) end).
Proof.
  intros H. unfold GetString. rewrite (bind_returns _ _ _ H).
  destruct err; reflexivity.
Qed.

Example New_defaults :
  New (Samples.config [])
  = {| version := "latest"; optional := false; fallback := None |}.
Proof. reflexivity. Qed.

Example New_optional_unparsable :
  optional (New (Samples.config [("optional", "yes")])) = false.
Proof. reflexivity. Qed.

Example New_empty_fallback :
  fallback (New (Samples.config [("fallback_value", "")])) = Some "".
Proof. reflexivity. Qed.

Lemma New_fallback (cfg : StaticConfig) :
  fallback (New cfg)
  = if cfgExists cfg "fallback_value" then Some (cfgString cfg "fallback_value") else None.
Proof. reflexivity. Qed.

(** C2, on the code: with a client at hand, a key without separator makes
    [getSecretBytes] panic on [splitKey[1]], after the client was built and
    before any request; no error is returned. *)
Theorem getSecretBytes_no_separator_panics (w : World) (p : provider) (key : string)
    (c : Client w) :
  NewClient w = inr c →
  Count key slash = 0 →
  getSecretBytes w p key
  = ([EvNewClient], Panics "runtime error: index out of range [1] with length 1")
  ∧ result (GetString w p key) = Panics "runtime error: index out of range [1] with length 1".
Proof.
  intros Hc Hkey.
  assert (getSecretBytes w p key
          = ([EvNewClient], Panics "runtime error: index out of range [1] with length 1")) as H.
  { unfold getSecretBytes. rewrite Hc, (SplitN_2_no_sep slash) by done. reflexivity. }
  split; [exact H|]. unfold GetString. rewrite H. reflexivity.
Qed.

Lemma getSecretBytes_no_separator_panics_witness :
  getSecretBytes Samples.sm_one_secret (New (Samples.config [])) "nosep"
  = ([EvNewClient], Panics "runtime error: index out of range [1] with length 1")
  ∧ result (GetString Samples.sm_one_secret (New (Samples.config [])) "nosep")
    = Panics "runtime error: index out of range [1] with length 1".
Proof.
  apply (getSecretBytes_no_separator_panics Samples.sm_one_secret _ "nosep" tt);
    reflexivity.
Defined.

(** C4, as the claim states it, fails: for an optional provider and a
    secret manager whose client cannot be built, [getSecretBytes] returns the
    construction error, where the missing-value policy gives an empty
    success. *)
Lemma client_failure_not_absorbed :
  NewClient Samples.sm_unreachable = inl (Plain "could not find default credentials")
  ∧ optional (New (Samples.config [("optional", "true")])) = true
  ∧ result (getSecretBytes Samples.sm_unreachable
              (New (Samples.config [("optional", "true")])) "proj/db")
    = Returns (None, Some (Plain "could not find default credentials"))
  ∧ Spec.missingValuePolicy (New (Samples.config [("optional", "true")]))
      (Plain "could not find default credentials")
    = (None, None)
  ∧ result (getSecretBytes Samples.sm_unreachable
              (New (Samples.config [("optional", "true")])) "proj/db")
    ≠ Returns (Spec.missingValuePolicy (New (Samples.config [("optional", "true")]))
                 (Plain "could not find default credentials")).
Proof. repeat split; try (vm_compute; reflexivity). vm_compute. discriminate. Qed.

(** C4, amended: when the client cannot be built, [getSecretBytes] writes
    "failed to connect: ..." to the standard error stream, sends no request
    and returns the construction error itself, not wrapped, whatever the
    optional flag and the fallback value are; [GetString] returns the empty
    string with that error. *)
Theorem client_failure_always_surfaced (w : World) (p : provider) (key : string)
    (e : error) :
  NewClient w = inl e →
  getSecretBytes w p key
  = ([EvNewClient; EvStderr ("failed to connect: " +:+ Error e)], Returns (None, Some e))
  ∧ GetString w p key
    = ([EvNewClient; EvStderr ("failed to connect: " +:+ Error e)], Returns ("", Some e)).
Proof.
  intros H. split; [by apply getSecretBytes_no_client|].
  unfold GetString. rewrite (getSecretBytes_no_client _ _ _ _ H). reflexivity.
Qed.

Lemma client_failure_always_surfaced_witness :
  getSecretBytes Samples.sm_unreachable
    (New (Samples.config [("optional", "true"); ("fallback_value", "x")])) "proj/db"
  = ([EvNewClient; EvStderr "failed to connect: could not find default credentials"],
     Returns (None, Some (Plain "could not find default credentials")))
  ∧ GetString Samples.sm_unreachable
      (New (Samples.config [("optional", "true"); ("fallback_value", "x")])) "proj/db"
    = ([EvNewClient; EvStderr "failed to connect: could not find default credentials"],
       Returns ("", Some (Plain "could not find default credentials"))).
Proof.
  apply (client_failure_always_surfaced Samples.sm_unreachable _ "proj/db"
           (Plain "could not find default credentials")).
  reflexivity.
Defined.

(** C5: for an optional provider, with or without a fallback value, a
    request that was sent and failed makes [GetString] return the empty
    string and no error. *)
Theorem optional_absorbs_fetch_failure (w : World) (p : provider)
    (key project name : string) (c : Client w) (e : error) :
  optional p = true →
  NewClient w = inr c →
  SplitN key slash 2 = [project; name] →
  AccessSecretVersion w c (resourceName project name (version p)) = inl e →
  result (getSecretBytes w p key) = Returns (None, None)
  ∧ result (GetString w p key) = Returns ("", None).
Proof.
  intros Hopt Hc Hs He.
  assert (result (getSecretBytes w p key) = Returns (None, None)) as H.
  { rewrite (getSecretBytes_fetch _ _ _ _ _ _ Hc Hs), He, Hopt. reflexivity. }
  split; [exact H|]. by rewrite (GetString_of_bytes _ _ _ _ _ H).
Qed.

Lemma optional_absorbs_fetch_failure_witness :
  result (getSecretBytes Samples.sm_one_secret
            (New (Samples.config [("optional", "true"); ("fallback_value", "x")]))
            "proj/absent")
  = Returns (None, None)
  ∧ result (GetString Samples.sm_one_secret
              (New (Samples.config [("optional", "true"); ("fallback_value", "x")]))
              "proj/absent")
    = Returns ("", None).
Proof.
  apply (optional_absorbs_fetch_failure Samples.sm_one_secret _ "proj/absent"
           "proj" "absent" tt (Plain "rpc error: code = NotFound"));
    reflexivity.
Defined.

(** C6: for a provider built from a configuration in which [fallback_value]
    exists, with value [x], empty or not, and which is not optional, a
    request that was sent and failed makes [GetString] return [x] and no
    error. *)
Theorem fallback_substituted_on_fetch_failure (w : World) (cfg : StaticConfig)
    (key project name x : string) (c : Client w) (e : error) :
  optional (New cfg) = false →
  cfgExists cfg "fallback_value" = true →
  cfgString cfg "fallback_value" = x →
  NewClient w = inr c →
  SplitN key slash 2 = [project; name] →
  AccessSecretVersion w c (resourceName project name (version (New cfg))) = inl e →
  result (GetString w (New cfg) key) = Returns (x, None).
Proof.
  intros Hopt Hex Hx Hc Hs He.
  assert (result (getSecretBytes w (New cfg) key) = Returns (Some x, None)) as H.
  { rewrite (getSecretBytes_fetch _ _ _ _ _ _ Hc Hs), He, Hopt, New_fallback, Hex, Hx.
    reflexivity. }
  by rewrite (GetString_of_bytes _ _ _ _ _ H).
Qed.

Lemma fallback_substituted_on_fetch_failure_witness :
  result (GetString Samples.sm_one_secret (New (Samples.config [("fallback_value", "x")]))
            "proj/absent")
  = Returns ("x", None)
  ∧ result (GetString Samples.sm_one_secret (New (Samples.config [("fallback_value", "")]))
              "proj/absent")
    = Returns ("", None).
Proof.
  split.
  - apply (fallback_substituted_on_fetch_failure Samples.sm_one_secret
             (Samples.config [("fallback_value", "x")]) "proj/absent" "proj" "absent" "x"
             tt (Plain "rpc error: code = NotFound")); reflexivity.
  - apply (fallback_substituted_on_fetch_failure Samples.sm_one_secret
             (Samples.config [("fallback_value", "")]) "proj/absent" "proj" "absent" ""
             tt (Plain "rpc error: code = NotFound")); reflexivity.
Defined.

(** C7: for a provider that is not optional and has no fallback value, a
    request that was sent and failed with [e] makes [GetString] return an
    error whose message is "failed to get secret: " followed by the message
    of [e], and which wraps [e]. *)
Theorem fetch_failure_wrapped (w : World) (p : provider)
    (key project name : string) (c : Client w) (e : error) :
  optional p = false →
  fallback p = None →
  NewClient w = inr c →
  SplitN key slash 2 = [project; name] →
  AccessSecretVersion w c (resourceName project name (version p)) = inl e →
  ∃ err : error,
    result (GetString w p key) = Returns ("", Some err)
    ∧ Error err = "failed to get secret: " +:+ Error e
    ∧ String.prefix "failed to get secret" (Error err) = true
    ∧ Unwrap err = Some e.
Proof.
  intros Hopt Hfb Hc Hs He.
  exists (Errorf_w "failed to get secret: " e).
  assert (result (getSecretBytes w p key)
          = Returns (None, Some (Errorf_w "failed to get secret: " e))) as H.
  { rewrite (getSecretBytes_fetch _ _ _ _ _ _ Hc Hs), He, Hopt, Hfb. reflexivity. }
  rewrite (GetString_of_bytes _ _ _ _ _ H). repeat split; reflexivity.
Qed.

Lemma fetch_failure_wrapped_witness :
  ∃ err : error,
    result (GetString Samples.sm_one_secret (New (Samples.config [])) "proj/absent")
    = Returns ("", Some err)
    ∧ Error err = "failed to get secret: " +:+ Error (Plain "rpc error: code = NotFound")
    ∧ String.prefix "failed to get secret" (Error err) = true
    ∧ Unwrap err = Some (Plain "rpc error: code = NotFound").
Proof.
  apply (fetch_failure_wrapped Samples.sm_one_secret (New (Samples.config []))
           "proj/absent" "proj" "absent" tt); reflexivity.
Defined.

(** C10: with a decoder that leaves the map as it is and reports no error
    on the empty document, an optional provider whose request was sent and
    failed makes [GetStringMap] return the empty, non-nil map and no error,
    the same as for a secret that is stored as the empty document. *)
Theorem optional_fetch_failure_gives_empty_map (any : Type)
    (yamlUnmarshal : string → gmap string any → gmap string any * option error)
    (w : World) (p : provider) (key project name : string) (c : Client w) (e : error) :
  (∀ m, yamlUnmarshal "" m = (m, None)) →
  optional p = true →
  NewClient w = inr c →
  SplitN key slash 2 = [project; name] →
  AccessSecretVersion w c (resourceName project name (version p)) = inl e →
  result (GetStringMap any yamlUnmarshal w p key) = Returns (Some ∅, None)
  ∧ ∀ (w' : World) (c' : Client w'),
      NewClient w' = inr c' →
      AccessSecretVersion w' c' (resourceName project name (version p))
      = inr {| GetPayload := Some {| Data := Some "" |} |} →
      result (GetStringMap any yamlUnmarshal w' p key)
      = result (GetStringMap any yamlUnmarshal w p key).
Proof.
  intros Hyaml Hopt Hc Hs He.
  assert (result (GetStringMap any yamlUnmarshal w p key) = Returns (Some ∅, None)) as H.
  { assert (result (GetString w p key) = Returns ("", None)) as H.
    { apply (GetString_of_bytes w p key None None).
      rewrite (getSecretBytes_fetch _ _ _ _ _ _ Hc Hs), He, Hopt. reflexivity. }
    unfold GetStringMap. rewrite (bind_returns _ _ _ H). cbn. by rewrite Hyaml. }
  split; [exact H|]. intros w' c' Hc' Hok. rewrite H.
  assert (result (GetString w' p key) = Returns ("", None)) as H'.
  { apply (GetString_of_bytes w' p key (Some "") None).
    rewrite (getSecretBytes_fetch _ _ _ _ _ _ Hc' Hs), Hok. reflexivity. }
  unfold GetStringMap. rewrite (bind_returns _ _ _ H'). cbn. by rewrite Hyaml.
Qed.

Lemma optional_fetch_failure_gives_empty_map_witness :
  result (GetStringMap nat Samples.yaml_empty_only Samples.sm_one_secret
            (New (Samples.config [("optional", "true")])) "proj/absent")
  = Returns (Some ∅, None).
Proof.
  apply (optional_fetch_failure_gives_empty_map nat Samples.yaml_empty_only
           Samples.sm_one_secret (New (Samples.config [("optional", "true")]))
           "proj/absent" "proj" "absent" tt (Plain "rpc error: code = NotFound"));
    reflexivity.
Defined.

End CloudManager.

(** ** More on splitting: what the segments say of the path *)

Section Segments.
Variable c : ascii.

Lemma IndexByte_cut (s : string) (m : nat) :
  IndexByte s c = Some m →
  s = sliceTo m s +:+ String c (sliceFrom (m + 1) s) ∧ Count (sliceTo m s) c = 0.
Proof.
  revert m. induction s as [|a s IH]; intros m; simpl; [done|].
  destruct (decide (a = c)) as [->|Hne].
  - intros [= <-]. done.
  - destruct (IndexByte s c) as [m'|] eqn:Hm; [|done].
    intros [= <-]. destruct (IH m' eq_refl) as [Hs Hc]. split.
    + change (String a s
              = String a (sliceTo m' s +:+ String c (sliceFrom (m' + 1) s))).
      by f_equal.
    + simpl. by rewrite decide_False.
Qed.

(** Two segments: the path is the first, a separator, and the second, and
    the first holds no separator. *)
Lemma SplitN_2_two (s a b : string) :
  SplitN s c 2 = [a; b] → s = a +:+ String c b ∧ Count a c = 0.
Proof.
  destruct (IndexByte s c) as [m|] eqn:Hm.
  - rewrite (SplitN_2_sep c s m Hm). intros [= <- <-]. by apply IndexByte_cut.
  - rewrite (SplitN_2_no_sep c s) by (by apply IndexByte_None_Count). done.
Qed.

Lemma SplitN_2_first (a b : string) :
  Count a c = 0 → SplitN (a +:+ String c b) c 2 = [a; b].
Proof.
  intros H. rewrite (SplitN_2_sep c _ (String.length a)) by (by apply IndexByte_first).
  by rewrite sliceTo_app, sliceFrom_app.
Qed.

(** Three segments: the path is [a/b/c] and no segment holds a separator. *)
Lemma Split_three_inv (s s1 s2 s3 : string) :
  Split s c = [s1; s2; s3] →
  s = s1 +:+ String c (s2 +:+ String c s3)
  ∧ Count s1 c = 0 ∧ Count s2 c = 0 ∧ Count s3 c = 0.
Proof.
  intros H. pose proof (length_Split c s) as Hlen. rewrite H in Hlen. simpl in Hlen.
  rewrite Split_loop in H. replace (Count s c) with 2 in H by lia. simpl in H.
  destruct (IndexByte s c) as [m|] eqn:Hm; [|done].
  destruct (IndexByte (sliceFrom (m + 1) s) c) as [m'|] eqn:Hm'; [|done].
  injection H as <- <- <-.
  pose proof (IndexByte_Some_Count c _ _ Hm) as Hc.
  pose proof (IndexByte_Some_Count c _ _ Hm') as Hc'.
  destruct (IndexByte_cut _ _ Hm) as [Hs H1].
  destruct (IndexByte_cut _ _ Hm') as [Hs' H2].
  repeat split; [|done|done|lia].
  by rewrite <- Hs', <- Hs.
Qed.

End Segments.

(** ** The cluster-store provider: credential resolution and construction *)

Section Resolution.
Import K8s.

Lemma getKubeConfig_default_cases (w : World) :
  getKubeConfig_default w
  = match (UserHomeDir w).2 with
    | Some e =>
        ([EvUserHomeDir],
         Returns ("", Some (Errorf ("An error occurred getting the user's home directory: "
                                    +:+ Error e))))
    | None =>
        ([EvUserHomeDir; EvStat ((UserHomeDir w).1 +:+ "/.kube/config")],
         Returns (match Stat w ((UserHomeDir w).1 +:+ "/.kube/config") with
                  | None => ((UserHomeDir w).1 +:+ "/.kube/config", None)
                  | Some _ =>
                      ("", Some (Errorf ("No path was found in any of the following: kubeContext URI param, KUBECONFIG environment variable, or default path "
                                         +:+ ((UserHomeDir w).1 +:+ "/.kube/config")
                                         +:+ " does not exist.")))
                  end))
    end.
Proof.
  unfold getKubeConfig_default, userHomeDir, stat.
  destruct (UserHomeDir w) as [h [e|]]; cbn; [reflexivity|].
  destruct (Stat w _); reflexivity.
Qed.

Lemma getKubeConfig_env_cases (w : World) :
  getKubeConfig_env w
  = if decide (Getenv w "KUBECONFIG" ≠ "") then
      match Stat w (Getenv w "KUBECONFIG") with
      | Some _ =>
          ([EvGetenv "KUBECONFIG"; EvStat (Getenv w "KUBECONFIG")],
           Returns (Getenv w "KUBECONFIG",
                    Some (Errorf ("KUBECONFIG environment variable is set but path "
                                  +:+ Getenv w "KUBECONFIG" +:+ " does not exist."))))
      | None =>
          (EvGetenv "KUBECONFIG" :: EvStat (Getenv w "KUBECONFIG")
             :: trace (getKubeConfig_default w),
           result (getKubeConfig_default w))
      end
    else (EvGetenv "KUBECONFIG" :: trace (getKubeConfig_default w),
          result (getKubeConfig_default w)).
Proof.
  unfold getKubeConfig_env, getenv, stat. cbn.
  destruct (decide (Getenv w "KUBECONFIG" ≠ "")); cbn; [|reflexivity].
  destruct (Stat w _); reflexivity.
Qed.

Lemma getKubeConfig_past_explicit (w : World) (cfg : StaticConfig) :
  cfgString cfg "kubeConfigPath" = "" ∨ Stat w (cfgString cfg "kubeConfigPath") = None →
  getKubeConfig w cfg
  = ((if decide (cfgString cfg "kubeConfigPath" ≠ "")
      then [EvStat (cfgString cfg "kubeConfigPath")] else [])
     ++ trace (getKubeConfig_env w),
     result (getKubeConfig_env w)).
Proof.
  intros H. unfold getKubeConfig, stat.
  destruct (decide (cfgString cfg "kubeConfigPath" ≠ "")) as [Hset|Hunset].
  - destruct H as [H|H]; [done|]. cbn. rewrite H. reflexivity.
  - by destruct (getKubeConfig_env w).
Qed.

(** X1: an explicit credential path that is not on disk ends the resolution
    after the one check of that path: the path comes back with the error
    "kubeConfigPath URI parameter is set but path ... does not exist.", and
    neither the environment nor the home directory is looked at. *)
Theorem explicit_path_missing_fails_fast (w : World) (cfg : StaticConfig) (e : error) :
  cfgString cfg "kubeConfigPath" ≠ "" →
  Stat w (cfgString cfg "kubeConfigPath") = Some e →
  trace (getKubeConfig w cfg) = [EvStat (cfgString cfg "kubeConfigPath")]
  ∧ result (getKubeConfig w cfg)
    = Returns (cfgString cfg "kubeConfigPath",
               Some (Errorf ("kubeConfigPath URI parameter is set but path "
                             +:+ cfgString cfg "kubeConfigPath" +:+ " does not exist."))).
Proof.
  intros Hset Hstat. by rewrite (getKubeConfig_explicit_missing w cfg e).
Qed.

Lemma explicit_path_missing_fails_fast_witness :
  trace (getKubeConfig (Samples.machine ["/home/dev/.kube/config"] "" true)
           (Samples.config [("kubeConfigPath", "/etc/kube/admin.conf")]))
  = [EvStat "/etc/kube/admin.conf"]
  ∧ result (getKubeConfig (Samples.machine ["/home/dev/.kube/config"] "" true)
              (Samples.config [("kubeConfigPath", "/etc/kube/admin.conf")]))
    = Returns ("/etc/kube/admin.conf",
               Some (Errorf "kubeConfigPath URI parameter is set but path /etc/kube/admin.conf does not exist.")).
Proof.
  apply (explicit_path_missing_fails_fast
           (Samples.machine ["/home/dev/.kube/config"] "" true)
           (Samples.config [("kubeConfigPath", "/etc/kube/admin.conf")])
           (Plain "stat /etc/kube/admin.conf: no such file or directory"));
    [vm_compute; discriminate | reflexivity].
Defined.

(** X2: when the explicit path is unset or on disk, and [KUBECONFIG] names a
    path that is not on disk, the resolution ends there: that path comes
    back with the error "KUBECONFIG environment variable is set but path ...
    does not exist.", and the home directory is not asked for. *)
Theorem env_path_missing_fails_fast (w : World) (cfg : StaticConfig) (e : error) :
  cfgString cfg "kubeConfigPath" = "" ∨ Stat w (cfgString cfg "kubeConfigPath") = None →
  Getenv w "KUBECONFIG" ≠ "" →
  Stat w (Getenv w "KUBECONFIG") = Some e →
  trace (getKubeConfig w cfg)
  = (if decide (cfgString cfg "kubeConfigPath" ≠ "")
     then [EvStat (cfgString cfg "kubeConfigPath")] else [])
    ++ [EvGetenv "KUBECONFIG"; EvStat (Getenv w "KUBECONFIG")]
  ∧ result (getKubeConfig w cfg)
    = Returns (Getenv w "KUBECONFIG",
               Some (Errorf ("KUBECONFIG environment variable is set but path "
                             +:+ Getenv w "KUBECONFIG" +:+ " does not exist."))).
Proof.
  intros Hex Hset Hstat.
  rewrite (getKubeConfig_past_explicit w cfg Hex), getKubeConfig_env_cases.
  destruct (decide (Getenv w "KUBECONFIG" ≠ "")); [|done].
  rewrite Hstat. done.
Qed.

Lemma env_path_missing_fails_fast_witness :
  trace (getKubeConfig (Samples.machine ["/home/dev/.kube/config"] "/tmp/kc" true)
           (Samples.config []))
  = [EvGetenv "KUBECONFIG"; EvStat "/tmp/kc"]
  ∧ result (getKubeConfig (Samples.machine ["/home/dev/.kube/config"] "/tmp/kc" true)
              (Samples.config []))
    = Returns ("/tmp/kc",
               Some (Errorf "KUBECONFIG environment variable is set but path /tmp/kc does not exist.")).
Proof.
  apply (env_path_missing_fails_fast
           (Samples.machine ["/home/dev/.kube/config"] "/tmp/kc" true) (Samples.config [])
           (Plain "stat /tmp/kc: no such file or directory"));
    [left; reflexivity | vm_compute; discriminate | reflexivity].
Defined.

Lemma getKubeConfig_env_success (w : World) (path : string) :
  result (getKubeConfig_env w) = Returns (path, None) →
  path = (UserHomeDir w).1 +:+ "/.kube/config"
  ∧ (UserHomeDir w).2 = None
  ∧ Stat w path = None
  ∧ path ≠ "".
Proof.
  assert (∀ h : string, h +:+ "/.kube/config" ≠ "") as Hne
    by (intros [|a h]; discriminate).
  assert (result (getKubeConfig_default w) = Returns (path, None) →
          path = (UserHomeDir w).1 +:+ "/.kube/config"
          ∧ (UserHomeDir w).2 = None ∧ Stat w path = None ∧ path ≠ "") as Hdef.
  { rewrite getKubeConfig_default_cases.
    destruct (UserHomeDir w) as [h [e|]]; cbn; [done|].
    destruct (Stat w (h +:+ "/.kube/config")) eqn:Hs; cbn; [done|].
    intros [= <-]. by rewrite Hs. }
  rewrite getKubeConfig_env_cases.
  destruct (decide (Getenv w "KUBECONFIG" ≠ "")); [|exact Hdef].
  destruct (Stat w (Getenv w "KUBECONFIG")); [done|exact Hdef].
Qed.

(** A resolution that succeeds went through the environment stage. *)
Lemma getKubeConfig_success_env (w : World) (cfg : StaticConfig) (path : string) :
  result (getKubeConfig w cfg) = Returns (path, None) →
  result (getKubeConfig_env w) = Returns (path, None).
Proof.
  unfold getKubeConfig, stat.
  destruct (decide (cfgString cfg "kubeConfigPath" ≠ "")); [|done].
  cbn. by destruct (Stat w (cfgString cfg "kubeConfigPath")).
Qed.



(** X4: when the explicit path and the [KUBECONFIG] path are each unset or
    on disk and the home directory cannot be found, the resolution returns
    the empty path with the error "An error occurred getting the user's home
    directory: ..." and checks no default path: asking for the home
    directory is the last thing it does. *)
Theorem home_directory_error_reported (w : World) (cfg : StaticConfig) (e : error) :
  cfgString cfg "kubeConfigPath" = "" ∨ Stat w (cfgString cfg "kubeConfigPath") = None →
  Getenv w "KUBECONFIG" = "" ∨ Stat w (Getenv w "KUBECONFIG") = None →
  (UserHomeDir w).2 = Some e →
  result (getKubeConfig w cfg)
  = Returns ("", Some (Errorf ("An error occurred getting the user's home directory: "
                               +:+ Error e)))
  ∧ last (trace (getKubeConfig w cfg)) = Some EvUserHomeDir.
Proof.
  intros Hex Henv Hhome.
  rewrite (getKubeConfig_past_explicit w cfg Hex), getKubeConfig_env_cases,
    getKubeConfig_default_cases, Hhome.
  unfold trace, result.
  destruct (decide (Getenv w "KUBECONFIG" ≠ "")) as [Hset|Hunset].
  - destruct Henv as [Henv|Henv]; [done|]. rewrite Henv. cbn.
    split; [done|]. by rewrite last_app.
  - cbn. split; [done|]. by rewrite last_app.
Qed.

Lemma home_directory_error_reported_witness :
  result (getKubeConfig
            (Samples.machine_at [] "" ("", Some (Plain "$HOME is not defined")) true true true)
            (Samples.config []))
  = Returns ("", Some (Errorf "An error occurred getting the user's home directory: $HOME is not defined"))
  ∧ last (trace (getKubeConfig
                   (Samples.machine_at [] "" ("", Some (Plain "$HOME is not defined"))
                      true true true)
                   (Samples.config [])))
    = Some EvUserHomeDir.
Proof.
  apply (home_directory_error_reported
           (Samples.machine_at [] "" ("", Some (Plain "$HOME is not defined")) true true true)
           (Samples.config []) (Plain "$HOME is not defined"));
    [left; reflexivity | left; reflexivity | reflexivity].
Defined.

End Resolution.

Section Construction.
Import K8s.

(** X5: a failed resolution does not stop the construction: [New] prints
    "An error occurred getting the Kubeconfig path: ..." and returns a
    provider with no credential path and no context, whatever path came
    with the error; every lookup of a three-segment path on that provider
    then fails with "No Kubeconfig path was found" without any call to the
    outside. *)
Theorem New_unresolved_then_lookups_fail (w : World) (cfg : StaticConfig)
    (path0 : string) (e : error) :
  result (getKubeConfig w cfg) = Returns (path0, Some e) →
  New w cfg
  = (trace (getKubeConfig w cfg)
     ++ [EvPrintf ("An error occurred getting the Kubeconfig path: "
                   +:+ Error e +:+ newline)],
     Returns {| KubeConfigPath := ""; KubeContext := "" |})
  ∧ ∀ (w' : World) (p : provider) (path : string),
      result (New w cfg) = Returns p →
      length (Split path slash) = 3 →
      GetString w' p path = ([], Returns ("", Some (Errorf "No Kubeconfig path was found"))).
Proof.
  intros H.
  assert (New w cfg
          = (trace (getKubeConfig w cfg)
             ++ [EvPrintf ("An error occurred getting the Kubeconfig path: "
                           +:+ Error e +:+ newline)],
             Returns {| KubeConfigPath := ""; KubeContext := "" |})) as HNew.
  { unfold New. rewrite (bind_returns _ _ _ H). reflexivity. }
  split; [exact HNew|].
  intros w' p path Hp Hlen. rewrite HNew in Hp. injection Hp as <-.
  destruct (Split path slash) as [|a [|b [|c [|? ?]]]] eqn:Hs; try done.
  by rewrite (GetString_split w' _ path a b c Hs).
Qed.

Lemma New_unresolved_then_lookups_fail_witness :
  New (Samples.machine [] "" true)
      (Samples.config [("kubeConfigPath", "/etc/kube/admin.conf"); ("kubeContext", "staging")])
  = ([EvStat "/etc/kube/admin.conf";
      EvPrintf ("An error occurred getting the Kubeconfig path: kubeConfigPath URI parameter is set but path /etc/kube/admin.conf does not exist." +:+ newline)],
     Returns {| KubeConfigPath := ""; KubeContext := "" |})
  ∧ GetString (Samples.machine ["/etc/kube/admin.conf"] "" true)
      {| KubeConfigPath := ""; KubeContext := "" |} "default/db/password"
    = ([], Returns ("", Some (Errorf "No Kubeconfig path was found"))).
Proof.
  destruct (New_unresolved_then_lookups_fail (Samples.machine [] "" true)
              (Samples.config [("kubeConfigPath", "/etc/kube/admin.conf");
                               ("kubeContext", "staging")])
              "/etc/kube/admin.conf"
              (Errorf "kubeConfigPath URI parameter is set but path /etc/kube/admin.conf does not exist."))
    as [HNew Hlookup]; [vm_compute; reflexivity|].
  split; [exact HNew|].
  apply Hlookup; [rewrite HNew|]; reflexivity.
Defined.

(** X6: a successful resolution gives a provider whose credential path is
    the resolved one, not empty and on disk, and whose context is the
    [kubeContext] option as configured, empty when it is not set; nothing
    is printed. *)
Theorem New_resolved_provider (w : World) (cfg : StaticConfig) (path : string) :
  result (getKubeConfig w cfg) = Returns (path, None) →
  New w cfg
  = (trace (getKubeConfig w cfg),
     Returns {| KubeConfigPath := path; KubeContext := cfgString cfg "kubeContext" |})
  ∧ path ≠ ""
  ∧ Stat w path = None.
Proof.
  intros H.
  destruct (getKubeConfig_env_success w path (getKubeConfig_success_env w cfg path H))
    as (_ & _ & Hs & Hne).
  split; [|done].
  unfold New. rewrite (bind_returns _ _ _ H). cbn. rewrite app_nil_r.
  unfold getKubeContext.
  destruct (decide (cfgString cfg "kubeContext" ≠ "")) as [Hc|Hc]; [done|].
  apply dec_stable in Hc. by rewrite Hc.
Qed.

Lemma New_resolved_provider_witness :
  New (Samples.machine ["/home/dev/.kube/config"] "" true)
      (Samples.config [("kubeContext", "staging")])
  = ([EvGetenv "KUBECONFIG"; EvUserHomeDir; EvStat "/home/dev/.kube/config"],
     Returns {| KubeConfigPath := "/home/dev/.kube/config"; KubeContext := "staging" |})
  ∧ "/home/dev/.kube/config" ≠ ""
  ∧ Stat (Samples.machine ["/home/dev/.kube/config"] "" true) "/home/dev/.kube/config" = None.
Proof.
  apply (New_resolved_provider (Samples.machine ["/home/dev/.kube/config"] "" true)
           (Samples.config [("kubeContext", "staging")]) "/home/dev/.kube/config").
  vm_compute. reflexivity.
Defined.

End Construction.

(** ** The cluster-store provider: the fetch and the lookup *)

Section Lookup.
Import K8s.

Lemma getSecret_cases (w : World) (namespace secretName kubeConfigPath kubeContext : string) :
  getSecret w namespace secretName kubeConfigPath kubeContext
  = match ClientConfig w kubeContext kubeConfigPath with
    | inl e =>
        ((if decide (kubeContext = "")
          then [EvPrintf ("vals-k8s: kubeContext was not provided. Using current context."
                          +:+ newline)]
          else [])
         ++ [EvClientConfig kubeContext kubeConfigPath],
         Returns (None, Some (Errorf ("Unable to build Kubeconfig from vals configuration: "
                                      +:+ Error e))))
    | inr config =>
        match NewForConfig w config with
        | inl e =>
            ((if decide (kubeContext = "")
              then [EvPrintf ("vals-k8s: kubeContext was not provided. Using current context."
                              +:+ newline)]
              else [])
             ++ [EvClientConfig kubeContext kubeConfigPath; EvNewForConfig],
             Returns (None, Some (Errorf ("Unable to create the Kubernetes client: "
                                          +:+ Error e))))
        | inr clientset =>
            ((if decide (kubeContext = "")
              then [EvPrintf ("vals-k8s: kubeContext was not provided. Using current context."
                              +:+ newline)]
              else [])
             ++ [EvClientConfig kubeContext kubeConfigPath; EvNewForConfig;
                 EvSecretsGet namespace secretName],
             Returns (match SecretsGet w clientset namespace secretName with
                      | inl e =>
                          (None, Some (Errorf ("Unable to get the secret from Kubernetes: "
                                               +:+ Error e)))
                      | inr data => (data, None)
                      end))
        end
    end.
Proof.
  unfold getSecret, buildConfigWithContextFromFlags.
  destruct (decide (kubeContext = "")) as [Hctx|Hctx]; cbn;
    (destruct (ClientConfig w _ _) as [e|config]; cbn; [reflexivity|];
     destruct (NewForConfig w config) as [e|clientset]; cbn; [reflexivity|];
     destruct (SecretsGet w clientset _ _); reflexivity).
Qed.

(** X7: [getSecret] returns either no data and an error, or data and no
    error, never both and never a panic; it returns data only when the
    kubeconfig loaded, the client was built and the read succeeded, and the
    data is then what the cluster answered. *)
Theorem getSecret_data_or_error (w : World)
    (namespace secretName kubeConfigPath kubeContext : string) :
  (∃ e : error,
     result (getSecret w namespace secretName kubeConfigPath kubeContext)
     = Returns (None, Some e))
  ∨ (∃ (data : option (gmap string string)) (config : Config w) (clientset : Clientset w),
       result (getSecret w namespace secretName kubeConfigPath kubeContext)
       = Returns (data, None)
       ∧ ClientConfig w kubeContext kubeConfigPath = inr config
       ∧ NewForConfig w config = inr clientset
       ∧ SecretsGet w clientset namespace secretName = inr data).
Proof.
  rewrite getSecret_cases.
  destruct (ClientConfig w _ _) as [e|config] eqn:Hc; [left; by eexists|].
  destruct (NewForConfig w config) as [e|clientset] eqn:Hn; [left; by eexists|].
  destruct (SecretsGet w clientset _ _) as [e|data] eqn:Hg; [left; by eexists|].
  right. by exists data, config, clientset.
Qed.

(** X8: a failure is reported with the words of its stage and stops the
    fetch there: a kubeconfig that does not load gives "Unable to build
    Kubeconfig from vals configuration: ..." and no client is built; a
    client that cannot be built gives "Unable to create the Kubernetes
    client: ..." and no read is sent; a failed read gives "Unable to get the
    secret from Kubernetes: ...". *)
Theorem getSecret_stage_failures (w : World)
    (namespace secretName kubeConfigPath kubeContext : string) (e : error) :
  (ClientConfig w kubeContext kubeConfigPath = inl e →
   result (getSecret w namespace secretName kubeConfigPath kubeContext)
   = Returns (None, Some (Errorf ("Unable to build Kubeconfig from vals configuration: "
                                  +:+ Error e)))
   ∧ last (trace (getSecret w namespace secretName kubeConfigPath kubeContext))
     = Some (EvClientConfig kubeContext kubeConfigPath))
  ∧ (∀ config : Config w,
       ClientConfig w kubeContext kubeConfigPath = inr config →
       NewForConfig w config = inl e →
       result (getSecret w namespace secretName kubeConfigPath kubeContext)
       = Returns (None, Some (Errorf ("Unable to create the Kubernetes client: "
                                      +:+ Error e)))
       ∧ last (trace (getSecret w namespace secretName kubeConfigPath kubeContext))
         = Some EvNewForConfig)
  ∧ (∀ (config : Config w) (clientset : Clientset w),
       ClientConfig w kubeContext kubeConfigPath = inr config →
       NewForConfig w config = inr clientset →
       SecretsGet w clientset namespace secretName = inl e →
       result (getSecret w namespace secretName kubeConfigPath kubeContext)
       = Returns (None, Some (Errorf ("Unable to get the secret from Kubernetes: "
                                      +:+ Error e)))).
Proof.
  rewrite getSecret_cases. unfold trace, result. split; [|split].
  - intros Hc. rewrite Hc. cbn. by rewrite last_app.
  - intros config Hc Hn. rewrite Hc, Hn. cbn. by rewrite last_app.
  - intros config clientset Hc Hn Hg. by rewrite Hc, Hn, Hg.
Qed.

Lemma getSecret_stage_failures_witness :
  (result (getSecret (Samples.machine_at [] "" ("/home/dev", None) false true true)
             "default" "db" "/etc/kube/admin.conf" "staging")
   = Returns (None, Some (Errorf "Unable to build Kubeconfig from vals configuration: invalid configuration: no configuration has been provided"))
   ∧ last (trace (getSecret (Samples.machine_at [] "" ("/home/dev", None) false true true)
                    "default" "db" "/etc/kube/admin.conf" "staging"))
     = Some (EvClientConfig "staging" "/etc/kube/admin.conf"))
  ∧ (result (getSecret (Samples.machine_at [] "" ("/home/dev", None) true false true)
               "default" "db" "/etc/kube/admin.conf" "staging")
     = Returns (None, Some (Errorf "Unable to create the Kubernetes client: host must be a URL or a host:port pair"))
     ∧ last (trace (getSecret (Samples.machine_at [] "" ("/home/dev", None) true false true)
                      "default" "db" "/etc/kube/admin.conf" "staging"))
       = Some EvNewForConfig)
  ∧ result (getSecret (Samples.machine_at [] "" ("/home/dev", None) true true false)
              "default" "db" "/etc/kube/admin.conf" "staging")
    = Returns (None, Some (Errorf "Unable to get the secret from Kubernetes: connection refused")).
Proof.
  split; [|split].
  - apply (getSecret_stage_failures
             (Samples.machine_at [] "" ("/home/dev", None) false true true)
             "default" "db" "/etc/kube/admin.conf" "staging"
             (Plain "invalid configuration: no configuration has been provided")).
    reflexivity.
  - apply (getSecret_stage_failures
             (Samples.machine_at [] "" ("/home/dev", None) true false true)
             "default" "db" "/etc/kube/admin.conf" "staging"
             (Plain "host must be a URL or a host:port pair"))
      with (config := "/etc/kube/admin.conf"); reflexivity.
  - apply (getSecret_stage_failures
             (Samples.machine_at [] "" ("/home/dev", None) true true false)
             "default" "db" "/etc/kube/admin.conf" "staging" (Plain "connection refused"))
      with (config := "/etc/kube/admin.conf") (clientset := tt); reflexivity.
Defined.

(** X9: a fetch prints the note "kubeContext was not provided. Using
    current context." exactly when the context is empty, then loads the
    kubeconfig once with the context and path it was given, builds at most
    one client and sends at most one read, for the namespace and secret
    name it was given; nothing is tried twice. *)
Theorem getSecret_trace_shape (w : World)
    (namespace secretName kubeConfigPath kubeContext : string) :
  ∃ rest : list event,
    trace (getSecret w namespace secretName kubeConfigPath kubeContext)
    = (if decide (kubeContext = "")
       then [EvPrintf ("vals-k8s: kubeContext was not provided. Using current context."
                       +:+ newline)]
       else [])
      ++ EvClientConfig kubeContext kubeConfigPath :: rest
    ∧ (rest = [] ∨ rest = [EvNewForConfig]
       ∨ rest = [EvNewForConfig; EvSecretsGet namespace secretName]).
Proof.
  rewrite getSecret_cases.
  destruct (ClientConfig w _ _) as [e|config]; [eexists; split; [reflexivity|auto]|].
  destruct (NewForConfig w config) as [e|clientset];
    eexists; (split; [reflexivity|auto]).
Qed.

Lemma getSecret_returns (w : World)
    (namespace secretName kubeConfigPath kubeContext : string) :
  ∃ (data : option (gmap string string)) (err : option error),
    result (getSecret w namespace secretName kubeConfigPath kubeContext)
    = Returns (data, err).
Proof.
  rewrite getSecret_cases.
  destruct (ClientConfig w _ _) as [e|config]; [by eexists _, _|].
  destruct (NewForConfig w config) as [e|clientset]; [by eexists _, _|].
  destruct (SecretsGet w clientset _ _); by eexists _, _.
Qed.

(** What [GetString_at] returns once the fetch has returned. *)
Lemma GetString_at_after_fetch (w : World) (p : provider) (namespace secretName key : string)
    (data : option (gmap string string)) (err : option error) :
  KubeConfigPath p ≠ "" →
  result (getSecret w namespace secretName (KubeConfigPath p) (KubeContext p))
  = Returns (data, err) →
  GetString_at w p namespace secretName key
  = match err, mapIndex data key with
    | None, Some v =>
        (trace (getSecret w namespace secretName (KubeConfigPath p) (KubeContext p))
         ++ [EvDebugf
               (if decide (KubeContext p ≠ "")
                then ("vals-k8s: Retrieved secret "
                      +:+ namespace +:+ "/" +:+ secretName +:+ "/" +:+ key)
                     +:+ " (KubeContext: " +:+ KubeContext p +:+ ")"
                else "vals-k8s: Retrieved secret "
                     +:+ namespace +:+ "/" +:+ secretName +:+ "/" +:+ key)],
         Returns (v, None))
    | _, _ =>
        (trace (getSecret w namespace secretName (KubeConfigPath p) (KubeContext p)),
         Returns ("", Some (Errorf ("Key " +:+ key +:+ " does not exist in "
                                    +:+ namespace +:+ "/" +:+ secretName))))
    end.
Proof.
  intros Hp Hget. unfold GetString_at. rewrite decide_False by done.
  rewrite (bind_returns _ _ _ Hget).
  destruct err as [e|]; cbn; [by rewrite app_nil_r; destruct (mapIndex data key)|].
  destruct (mapIndex data key) as [v|]; cbn; [reflexivity|by rewrite app_nil_r].
Qed.



(** X11: [GetString] returns on every path, provider and cluster: the
    three reads of [splits] are guarded by the length test, so it never
    panics; and whenever it returns an error the value beside it is the
    empty string. *)
Theorem GetString_returns_never_panics (w : World) (p : provider) (path : string) :
  ∃ (v : string) (err : option error),
    result (GetString w p path) = Returns (v, err)
    ∧ (err ≠ None → v = "").
Proof.
  destruct (decide (length (Split path slash) ≠ 3)) as [Hbad|Hok].
  - unfold GetString. cbn zeta. rewrite decide_True by done. by eexists _, _.
  - apply dec_stable in Hok.
    destruct (Split path slash) as [|a [|b [|c [|? ?]]]] eqn:Hs; try done.
    rewrite (GetString_split w p path a b c Hs).
    destruct (decide (KubeConfigPath p = "")) as [Hp|Hp].
    + unfold GetString_at. rewrite decide_True by done. by eexists _, _.
    + destruct (getSecret_returns w a b (KubeConfigPath p) (KubeContext p))
        as (data & err & Hget).
      rewrite (GetString_at_after_fetch w p a b c data err Hp Hget).
      destruct err as [e|]; [by eexists _, _|].
      destruct (mapIndex data c); by eexists _, _.
Qed.

(** X12: [GetString] answers "Invalid path ... Path must be in the format
    <namespace>/<secret>/<key>" exactly for the paths that do not hold two
    separators; empty segments are not looked at, so [//] and [ns/name/]
    pass this test. *)
Theorem GetString_invalid_path_iff (w : World) (p : provider) (path : string) :
  result (GetString w p path)
  = Returns ("", Some (Errorf ("Invalid path " +:+ path
               +:+ ". Path must be in the format <namespace>/<secret>/<key>")))
  ↔ Count path slash ≠ 2.
Proof.
  pose proof (length_Split slash path) as Hlen. split.
  - intros H Hc.
    destruct (Split path slash) as [|a [|b [|c [|? ?]]]] eqn:Hs; simpl in Hlen; try lia.
    rewrite (GetString_split w p path a b c Hs) in H.
    destruct (decide (KubeConfigPath p = "")) as [Hp|Hp].
    + unfold GetString_at in H. rewrite decide_True in H by done. discriminate H.
    + destruct (getSecret_returns w a b (KubeConfigPath p) (KubeContext p))
        as (data & err & Hget).
      rewrite (GetString_at_after_fetch w p a b c data err Hp Hget) in H.
      destruct err as [e|]; [discriminate H|].
      destruct (mapIndex data c); discriminate H.
  - intros Hc. unfold GetString. cbn zeta. rewrite decide_True by lia. done.
Qed.

(** X13: a path that passes the test on the number of segments is
    [ns/name/key] for segments that hold no separator, and these segments
    are the namespace, secret name and key the lookup goes on with: the
    split loses nothing of the path. *)
Theorem GetString_accepted_path_shape (w : World) (p : provider) (path : string) :
  length (Split path slash) = 3 →
  ∃ ns name key : string,
    path = ns +:+ "/" +:+ name +:+ "/" +:+ key
    ∧ Count ns slash = 0 ∧ Count name slash = 0 ∧ Count key slash = 0
    ∧ GetString w p path = GetString_at w p ns name key.
Proof.
  intros Hlen.
  destruct (Split path slash) as [|a [|b [|c [|? ?]]]] eqn:Hs; try done.
  destruct (Split_three_inv slash path a b c Hs) as (Hpath & Ha & Hb & Hc).
  exists a, b, c. repeat split; try done.
  by apply GetString_split.
Qed.

Lemma GetString_accepted_path_shape_witness :
  ∃ ns name key : string,
    "default/db/" = ns +:+ "/" +:+ name +:+ "/" +:+ key
    ∧ Count ns slash = 0 ∧ Count name slash = 0 ∧ Count key slash = 0
    ∧ GetString (Samples.machine [] "" true) Samples.admin "default/db/"
      = GetString_at (Samples.machine [] "" true) Samples.admin ns name key.
Proof.
  apply (GetString_accepted_path_shape (Samples.machine [] "" true) Samples.admin
           "default/db/").
  reflexivity.
Defined.

End Lookup.

(** ** The cloud-manager provider: construction, addressing and outcomes *)

Section CloudManagerMore.
Import Gcpsecrets.

(** Every case of [getSecretBytes]: the client, the first separator of the
    key, and the answer to the request. *)
Lemma getSecretBytes_cases (w : World) (p : provider) (key : string) :
  getSecretBytes w p key
  = match NewClient w with
    | inl e =>
        ([EvNewClient; EvStderr ("failed to connect: " +:+ Error e)],
         Returns (None, Some e))
    | inr c =>
        match IndexByte key slash with
        | None =>
            ([EvNewClient], Panics "runtime error: index out of range [1] with length 1")
        | Some m =>
            ([EvNewClient;
              EvAccessSecretVersion
                (resourceName (sliceTo m key) (sliceFrom (m + 1) key) (version p))],
             match AccessSecretVersion w c
                     (resourceName (sliceTo m key) (sliceFrom (m + 1) key) (version p)) with
             | inl err =>
                 if optional p then Returns (None, None)
                 else match fallback p with
                      | Some x => Returns (Some x, None)
                      | None => Returns (None, Some (Errorf_w "failed to get secret: " err))
                      end
             | inr secret =>
                 match GetPayload secret with
                 | None =>
                     Panics "runtime error: invalid memory address or nil pointer dereference"
                 | Some payload => Returns (Data payload, None)
                 end
             end)
        end
    end.
Proof.
  destruct (NewClient w) as [e|c] eqn:Hc.
  - by apply getSecretBytes_no_client.
  - destruct (IndexByte key slash) as [m|] eqn:Hm.
    + by apply getSecretBytes_fetch, SplitN_2_sep.
    + unfold getSecretBytes.
      rewrite Hc, (SplitN_2_no_sep slash) by (by apply IndexByte_None_Count).
      reflexivity.
Qed.

Lemma GetString_trace (w : World) (p : provider) (key : string) :
  trace (GetString w p key) = trace (getSecretBytes w p key).
Proof.
  unfold GetString, trace, mbind, eff_bind.
  destruct (getSecretBytes w p key) as [t [[secret [e|]]|msg]]; cbn;
    by rewrite ?app_nil_r.
Qed.

Lemma GetString_panics (w : World) (p : provider) (key msg : string) :
  result (getSecretBytes w p key) = Panics msg → result (GetString w p key) = Panics msg.
Proof. unfold GetString, result, mbind, eff_bind. by intros ->. Qed.

(** X14: a provider is optional exactly when the [optional] option is one
    of [1], [t], [T], [TRUE], [true], [True]; every other value, the empty
    one and the ones [strconv.ParseBool] rejects included, leaves it not
    optional, and none makes the construction fail. *)
Theorem New_optional_iff (cfg : StaticConfig) :
  optional (New cfg) = true
  ↔ cfgString cfg "optional" ∈ ["1"; "t"; "T"; "TRUE"; "true"; "True"].
Proof.
  unfold New, ParseBool. cbn [optional].
  destruct (decide (cfgString cfg "optional" ≠ "")) as [Hset|Hunset].
  - destruct (bool_decide _) eqn:Ht.
    + apply bool_decide_eq_true in Ht. done.
    + apply bool_decide_eq_false in Ht. destruct (bool_decide _); done.
  - apply dec_stable in Hunset. rewrite Hunset. split; [done|].
    intros H. repeat (apply elem_of_cons in H as [H|H]; [discriminate H|]).
    by apply elem_of_nil in H.
Qed.

(** X15: a provider built from a configuration addresses its request to
    [projects/P/secrets/S/versions/V], where [P] is the part of the key
    before its first separator, [S] is all that follows it, further
    separators included, and [V] is the [version] option, or [latest] when
    that option is empty; the request is the one thing done after the
    client is built. *)
Theorem request_addressing (w : World) (cfg : StaticConfig) (project name : string)
    (c : Client w) :
  NewClient w = inr c →
  Count project slash = 0 →
  trace (GetString w (New cfg) (project +:+ "/" +:+ name))
  = [EvNewClient;
     EvAccessSecretVersion
       ("projects/" +:+ project +:+ "/secrets/" +:+ name +:+ "/versions/"
        +:+ (if decide (cfgString cfg "version" = "") then "latest"
             else cfgString cfg "version"))].
Proof.
  intros Hc Hp. rewrite GetString_trace.
  change (project +:+ "/" +:+ name) with (project +:+ String slash name).
  by rewrite (getSecretBytes_fetch w (New cfg) _ project name c Hc
                (SplitN_2_first slash project name Hp)).
Qed.

Lemma request_addressing_witness :
  trace (GetString Samples.sm_one_secret (New (Samples.config [])) "proj/team/db")
  = [EvNewClient; EvAccessSecretVersion "projects/proj/secrets/team/db/versions/latest"]
  ∧ trace (GetString Samples.sm_one_secret (New (Samples.config [("version", "7")]))
             "proj/db")
    = [EvNewClient; EvAccessSecretVersion "projects/proj/secrets/db/versions/7"].
Proof.
  split.
  - apply (request_addressing Samples.sm_one_secret (Samples.config []) "proj" "team/db" tt);
      reflexivity.
  - apply (request_addressing Samples.sm_one_secret (Samples.config [("version", "7")])
             "proj" "db" tt); reflexivity.
Defined.

(** X16: when the request succeeds, the payload comes back as stored:
    [getSecretBytes] returns its bytes and [GetString] the same bytes as a
    string (the empty string for a nil slice), with no error, whatever the
    optional flag and the fallback value are; a fallback never replaces a
    value that was found. *)
Theorem fetched_payload_returned_as_stored (w : World) (p : provider)
    (key project name : string) (c : Client w) (data : option string) :
  NewClient w = inr c →
  SplitN key slash 2 = [project; name] →
  AccessSecretVersion w c (resourceName project name (version p))
  = inr {| GetPayload := Some {| Data := data |} |} →
  result (getSecretBytes w p key) = Returns (data, None)
  ∧ result (GetString w p key) = Returns (default "" data, None).
Proof.
  intros Hc Hs Hok.
  assert (result (getSecretBytes w p key) = Returns (data, None)) as H
    by (by rewrite (getSecretBytes_fetch _ _ _ _ _ _ Hc Hs), Hok).
  split; [exact H|]. by rewrite (GetString_of_bytes _ _ _ _ _ H).
Qed.

Lemma fetched_payload_returned_as_stored_witness :
  result (getSecretBytes
            (Samples.sm_holding "projects/proj/secrets/db/versions/latest"
               (Some {| Data := Some "hunter2" |}))
            (New (Samples.config [("optional", "true"); ("fallback_value", "x")])) "proj/db")
  = Returns (Some "hunter2", None)
  ∧ result (GetString
              (Samples.sm_holding "projects/proj/secrets/db/versions/latest"
                 (Some {| Data := Some "hunter2" |}))
              (New (Samples.config [("optional", "true"); ("fallback_value", "x")]))
              "proj/db")
    = Returns ("hunter2", None).
Proof.
  apply (fetched_payload_returned_as_stored
           (Samples.sm_holding "projects/proj/secrets/db/versions/latest"
              (Some {| Data := Some "hunter2" |}))
           _ "proj/db" "proj" "db" tt (Some "hunter2")); reflexivity.
Defined.

(** X17: a request is sent only for a key that holds a separator: when
    the trace of a lookup holds a request, the key is [project/name] with no
    separator in [project], and the request is the one for that project,
    that name and the version of the provider. *)
Theorem request_sent_only_for_split_key (w : World) (p : provider) (key n : string) :
  EvAccessSecretVersion n ∈ trace (getSecretBytes w p key) →
  ∃ project name : string,
    key = project +:+ "/" +:+ name
    ∧ Count project slash = 0
    ∧ n = resourceName project name (version p).
Proof.
  rewrite getSecretBytes_cases. unfold trace.
  destruct (NewClient w) as [e|c]; cbn.
  - intros H. apply elem_of_cons in H as [H|H]; [done|].
    apply elem_of_cons in H as [H|H]; [done|]. by apply elem_of_nil in H.
  - destruct (IndexByte key slash) as [m|] eqn:Hm; cbn.
    + intros H. apply elem_of_cons in H as [H|H]; [done|].
      apply elem_of_cons in H as [H|H]; [|by apply elem_of_nil in H].
      injection H as ->. destruct (IndexByte_cut slash key m Hm) as [Hkey Hcount].
      by exists (sliceTo m key), (sliceFrom (m + 1) key).
    + intros H. apply elem_of_cons in H as [H|H]; [done|]. by apply elem_of_nil in H.
Qed.

Lemma request_sent_only_for_split_key_witness :
  ∃ project name : string,
    "proj/team/db" = project +:+ "/" +:+ name
    ∧ Count project slash = 0
    ∧ "projects/proj/secrets/team/db/versions/latest"
      = resourceName project name (version (New (Samples.config []))).
Proof.
  apply (request_sent_only_for_split_key Samples.sm_one_secret (New (Samples.config []))
           "proj/team/db" "projects/proj/secrets/team/db/versions/latest").
  apply list_elem_of_further, list_elem_of_here.
Defined.

(** X18: a successful answer whose payload pointer is nil makes the lookup
    panic on the read of its [Data] field; no error is returned, and the
    optional flag and the fallback value do not help. *)
Theorem nil_payload_panics (w : World) (p : provider) (key project name : string)
    (c : Client w) :
  NewClient w = inr c →
  SplitN key slash 2 = [project; name] →
  AccessSecretVersion w c (resourceName project name (version p))
  = inr {| GetPayload := None |} →
  result (GetString w p key)
  = Panics "runtime error: invalid memory address or nil pointer dereference".
Proof.
  intros Hc Hs Hok. apply GetString_panics.
  by rewrite (getSecretBytes_fetch _ _ _ _ _ _ Hc Hs), Hok.
Qed.

Lemma nil_payload_panics_witness :
  result (GetString (Samples.sm_holding "projects/proj/secrets/db/versions/latest" None)
            (New (Samples.config [("optional", "true")])) "proj/db")
  = Panics "runtime error: invalid memory address or nil pointer dereference".
Proof.
  apply (nil_payload_panics (Samples.sm_holding "projects/proj/secrets/db/versions/latest" None)
           _ "proj/db" "proj" "db" tt); reflexivity.
Defined.

(** X19: an error never comes with data, and it has one of two origins:
    it is the error of the client construction, as it is, or it is a failed
    request wrapped as "failed to get secret: ...", and then the provider is
    neither optional nor has a fallback value.  So an optional provider and
    a provider with a fallback value return an error only when the client
    cannot be built. *)
Theorem error_origin (w : World) (p : provider) (key : string)
    (data : option string) (e : error) :
  result (getSecretBytes w p key) = Returns (data, Some e) →
  data = None
  ∧ (NewClient w = inl e
     ∨ (∃ cause : error,
          e = Errorf_w "failed to get secret: " cause
          ∧ optional p = false ∧ fallback p = None)).
Proof.
  rewrite getSecretBytes_cases. unfold result.
  destruct (NewClient w) as [e'|c]; cbn.
  - intros [= <- <-]. auto.
  - destruct (IndexByte key slash) as [m|]; cbn; [|done].
    destruct (AccessSecretVersion w c _) as [err|secret].
    + destruct (optional p); [done|]. destruct (fallback p); [done|].
      intros [= <- <-]. split; [done|]. right. by exists err.
    + destruct (GetPayload secret); done.
Qed.

Lemma error_origin_witness :
  (None : option string) = None
  ∧ (NewClient Samples.sm_one_secret
     = inl (Errorf_w "failed to get secret: " (Plain "rpc error: code = NotFound"))
     ∨ (∃ cause : error,
          Errorf_w "failed to get secret: " (Plain "rpc error: code = NotFound")
          = Errorf_w "failed to get secret: " cause
          ∧ optional (New (Samples.config [])) = false
          ∧ fallback (New (Samples.config [])) = None)).
Proof.
  apply (error_origin Samples.sm_one_secret (New (Samples.config [])) "proj/absent").
  reflexivity.
Defined.


(** X21: with a secret manager whose successful answers all carry a
    payload, a lookup panics exactly when the client can be built and the
    key holds no separator; in every other case [GetString] returns. *)
Theorem lookup_panics_iff (w : World) (p : provider) (key : string) :
  (∀ (c : Client w) (n : string) (secret : AccessSecretVersionResponse),
     AccessSecretVersion w c n = inr secret → GetPayload secret ≠ None) →
  (∃ msg : string, result (GetString w p key) = Panics msg)
  ↔ (∃ c : Client w, NewClient w = inr c) ∧ Count key slash = 0.
Proof.
  intros Hpayload. split.
  - intros [msg H]. unfold GetString, result, mbind, eff_bind in H.
    rewrite getSecretBytes_cases in H.
    destruct (NewClient w) as [e|c]; cbn in H; [done|].
    split; [by exists c|].
    destruct (IndexByte key slash) as [m|] eqn:Hm; [|by apply IndexByte_None_Count].
    cbn in H. destruct (AccessSecretVersion w c _) as [err|secret] eqn:Hreq.
    + destruct (optional p); [done|]. by destruct (fallback p).
    + pose proof (Hpayload c _ secret Hreq). by destruct (GetPayload secret).
  - intros [[c Hc] Hkey]. eexists. apply GetString_panics.
    rewrite getSecretBytes_cases, Hc, (IndexByte_absent slash key Hkey). reflexivity.
Qed.

Lemma lookup_panics_iff_witness :
  (∃ msg : string,
     result (GetString Samples.sm_one_secret (New (Samples.config [])) "") = Panics msg)
  ↔ (∃ c : Client Samples.sm_one_secret, NewClient Samples.sm_one_secret = inr c)
    ∧ Count "" slash = 0.
Proof.
  apply (lookup_panics_iff Samples.sm_one_secret (New (Samples.config [])) "").
  intros c n secret. cbn. destruct (decide _); [|done]. by intros [= <-].
Defined.

End CloudManagerMore.

(** ** The cloud-manager provider: structured values *)

Section StructuredValues.
Import Gcpsecrets.
Variable any : Type.
Variable yamlUnmarshal : string → gmap string any → gmap string any * option error.

(** What [GetStringMap] returns once [GetString] has returned. *)
Lemma GetStringMap_after_GetString (w : World) (p : provider) (key doc : string)
    (err : option error) :
  result (GetString w p key) = Returns (doc, err) →
  GetStringMap any yamlUnmarshal w p key
  = (trace (GetString w p key),
     Returns match err with
             | Some e => (None, Some e)
             | None =>
                 match (yamlUnmarshal doc ∅).2 with
                 | Some e => (None, Some (Errorf_w "failed to unmarshal secret: " e))
                 | None => (Some (yamlUnmarshal doc ∅).1, None)
                 end
             end).
Proof.
  intros H. unfold GetStringMap. rewrite (bind_returns _ _ _ H).
  destruct err as [e|]; cbn; [by rewrite app_nil_r|].
  destruct (yamlUnmarshal doc ∅) as [m [e|]]; cbn; by rewrite app_nil_r.
Qed.

(** X22: an error of [GetString] goes through [GetStringMap] as it is,
    beside the nil map: it is not wrapped a second time, nothing is decoded
    and nothing more is done to the outside. *)
Theorem GetStringMap_error_passthrough (w : World) (p : provider) (key doc : string)
    (e : error) :
  result (GetString w p key) = Returns (doc, Some e) →
  GetStringMap any yamlUnmarshal w p key
  = (trace (getSecretBytes w p key), Returns (None, Some e)).
Proof.
  intros H. rewrite (GetStringMap_after_GetString w p key doc (Some e) H).
  by rewrite GetString_trace.
Qed.

(** X23: a document that does not decode gives the nil map, whatever the
    decoder had put into the map before it failed, and an error whose
    message is "failed to unmarshal secret: " followed by the message of the
    decoder's error, which it wraps. *)
Theorem GetStringMap_decode_error_wrapped (w : World) (p : provider) (key doc : string)
    (m : gmap string any) (e : error) :
  result (GetString w p key) = Returns (doc, None) →
  yamlUnmarshal doc ∅ = (m, Some e) →
  ∃ err : error,
    result (GetStringMap any yamlUnmarshal w p key) = Returns (None, Some err)
    ∧ Error err = "failed to unmarshal secret: " +:+ Error e
    ∧ Unwrap err = Some e.
Proof.
  intros H Hy. exists (Errorf_w "failed to unmarshal secret: " e).
  rewrite (GetStringMap_after_GetString w p key doc None H), Hy. done.
Qed.

(** X24: a stored document that decodes is returned as the mapping the
    decoder builds from the empty map, with no error: the payload of the
    answer reaches the decoder unchanged, and what the decoder gives reaches
    the caller unchanged. *)
Theorem GetStringMap_returns_decoded_document (w : World) (p : provider)
    (key project name : string) (c : Client w) (data : option string)
    (m : gmap string any) :
  NewClient w = inr c →
  SplitN key slash 2 = [project; name] →
  AccessSecretVersion w c (resourceName project name (version p))
  = inr {| GetPayload := Some {| Data := data |} |} →
  yamlUnmarshal (default "" data) ∅ = (m, None) →
  result (GetStringMap any yamlUnmarshal w p key) = Returns (Some m, None).
Proof.
  intros Hc Hs Hok Hy.
  assert (result (GetString w p key) = Returns (default "" data, None)) as H.
  { apply (GetString_of_bytes w p key data None).
    by rewrite (getSecretBytes_fetch _ _ _ _ _ _ Hc Hs), Hok. }
  rewrite (GetStringMap_after_GetString w p key _ None H), Hy. done.
Qed.

(** X25: the fallback value of a provider that is not optional is decoded
    like a stored document: when the request fails, [GetStringMap] returns
    the mapping the fallback value decodes to. *)
Theorem GetStringMap_decodes_fallback (w : World) (p : provider)
    (key project name x : string) (c : Client w) (e : error) (m : gmap string any) :
  optional p = false →
  fallback p = Some x →
  NewClient w = inr c →
  SplitN key slash 2 = [project; name] →
  AccessSecretVersion w c (resourceName project name (version p)) = inl e →
  yamlUnmarshal x ∅ = (m, None) →
  result (GetStringMap any yamlUnmarshal w p key) = Returns (Some m, None).
Proof.
  intros Hopt Hfb Hc Hs He Hy.
  assert (result (GetString w p key) = Returns (x, None)) as H.
  { apply (GetString_of_bytes w p key (Some x) None).
    by rewrite (getSecretBytes_fetch _ _ _ _ _ _ Hc Hs), He, Hopt, Hfb. }
  rewrite (GetStringMap_after_GetString w p key _ None H), Hy. done.
Qed.

End StructuredValues.

Lemma GetStringMap_error_passthrough_witness :
  Gcpsecrets.GetStringMap string Samples.yaml_one_pair Samples.sm_one_secret
    (Gcpsecrets.New (Samples.config [])) "proj/absent"
  = ([Gcpsecrets.EvNewClient;
      Gcpsecrets.EvAccessSecretVersion "projects/proj/secrets/absent/versions/latest"],
     Returns (None, Some (Errorf_w "failed to get secret: "
                            (Plain "rpc error: code = NotFound")))).
Proof.
  apply (GetStringMap_error_passthrough string Samples.yaml_one_pair Samples.sm_one_secret
           (Gcpsecrets.New (Samples.config [])) "proj/absent" "").
  reflexivity.
Defined.

Lemma GetStringMap_decode_error_wrapped_witness :
  ∃ err : error,
    result (Gcpsecrets.GetStringMap string Samples.yaml_one_pair
              (Samples.sm_holding "projects/proj/secrets/db/versions/latest"
                 (Some {| Gcpsecrets.Data := Some "hunter2" |}))
              (Gcpsecrets.New (Samples.config [])) "proj/db")
    = Returns (None, Some err)
    ∧ Error err = "failed to unmarshal secret: " +:+ Error (Plain "yaml: unmarshal errors")
    ∧ Unwrap err = Some (Plain "yaml: unmarshal errors").
Proof.
  apply (GetStringMap_decode_error_wrapped string Samples.yaml_one_pair
           (Samples.sm_holding "projects/proj/secrets/db/versions/latest"
              (Some {| Gcpsecrets.Data := Some "hunter2" |}))
           (Gcpsecrets.New (Samples.config [])) "proj/db" "hunter2" ∅);
    reflexivity.
Defined.

Lemma GetStringMap_returns_decoded_document_witness :
  result (Gcpsecrets.GetStringMap string Samples.yaml_one_pair
            (Samples.sm_holding "projects/proj/secrets/db/versions/latest"
               (Some {| Gcpsecrets.Data := Some "user: admin" |}))
            (Gcpsecrets.New (Samples.config [])) "proj/db")
  = Returns (Some {[ "user" := "admin" ]}, None).
Proof.
  apply (GetStringMap_returns_decoded_document string Samples.yaml_one_pair
           (Samples.sm_holding "projects/proj/secrets/db/versions/latest"
              (Some {| Gcpsecrets.Data := Some "user: admin" |}))
           (Gcpsecrets.New (Samples.config [])) "proj/db" "proj" "db" tt
           (Some "user: admin"));
    reflexivity.
Defined.

Lemma GetStringMap_decodes_fallback_witness :
  result (Gcpsecrets.GetStringMap string Samples.yaml_one_pair Samples.sm_one_secret
            (Gcpsecrets.New (Samples.config [("fallback_value", "user: guest")]))
            "proj/absent")
  = Returns (Some {[ "user" := "guest" ]}, None).
Proof.
  apply (GetStringMap_decodes_fallback string Samples.yaml_one_pair Samples.sm_one_secret
           (Gcpsecrets.New (Samples.config [("fallback_value", "user: guest")]))
           "proj/absent" "proj" "absent" "user: guest" tt
           (Plain "rpc error: code = NotFound"));
    reflexivity.
Defined.
